(** * Verification of the extraction and pagination core of
      maps-reviews-api-scraper (src/scraper.py)

    The development is a shallow embedding of [GoogleMapsAPIScraper]:
    Python strings, the regular expressions the scraper uses, the
    BeautifulSoup/lxml document tree, the result dictionaries, and the
    effectful methods ([_get_api_response], [_handle_review_exception],
    [_parse_review], [scrape_reviews], [_parse_place], [scrape_place])
    written in a state-and-exception monad over an explicit world (heap
    of list objects, clock, I/O trace).

    Conventions.
    - A Python [str] is a Rocq [string]; a character outside ASCII is
      carried as its UTF-8 bytes.  All patterns of the scraper that
      inspect individual characters are ASCII, so searching, replacing
      and matching give the same text either way.
    - A Python [float] read from a decimal literal is kept as the exact
      rational the literal denotes (in lowest terms).
    - Everything that lives outside the repository (the HTTP endpoint,
      the two HTML parsers, the clock, the traceback formatter) is a
      field of the environment record [Env].
    - The logger, the row writer, [file.flush], the diagnostics file of
      [_handle_review_exception] and [time.sleep] return normally; what
      they did is an event of the trace.  Exceptions outside the
      [Exception] hierarchy (an interrupt) are not modelled. *)

From Stdlib Require Import ZArith QArith Ascii String List Bool Lia DecimalString.
From stdpp Require Import base option list gmap strings.

Open Scope Z_scope.

(** ** Python strings *)

Definition code (c : ascii) : nat := nat_of_ascii c.

Definition is_digit (c : ascii) : bool :=
  ((48 <=? code c) && (code c <=? 57))%nat.

Definition is_hexdigit (c : ascii) : bool :=
  is_digit c
  || ((97 <=? code c) && (code c <=? 102))%nat
  || ((65 <=? code c) && (code c <=? 70))%nat.

(** [\s] of the regex module on the ASCII range: [ \t\n\r\f\v]. *)
Definition is_space (c : ascii) : bool :=
  ((code c =? 32) || ((9 <=? code c) && (code c <=? 13)))%nat.

(** [str.isspace] additionally accepts the separators 0x1c-0x1f. *)
Definition py_isspace (c : ascii) : bool :=
  is_space c || ((28 <=? code c) && (code c <=? 31))%nat.

Definition is_char (a c : ascii) : bool := Ascii.eqb a c.

Definition not_newline (c : ascii) : bool := negb (code c =? 10)%nat.

Definition chars (s : string) : list ascii := list_ascii_of_string s.
Definition text_of (l : list ascii) : string := string_of_list_ascii l.

Definition len (s : string) : Z := Z.of_nat (String.length s).

(** [s.find(p)]: offset of the first occurrence of [p], or -1. *)
Fixpoint find_from (p s : string) (i : Z) : Z :=
  if String.prefix p s then i
  else match s with
       | EmptyString => -1
       | String _ s' => find_from p s' (i + 1)
       end.

Definition str_find (p s : string) : Z := find_from p s 0.

(** [regex.search(p, s, flags=regex.REVERSE)] for a literal [p]: the
    scan starts at the end of [s], so the match is the last occurrence.
    The result is its span (start, end), [None] when there is none. *)
Fixpoint rsearch_from (p s : string) (i : Z) : option (Z * Z) :=
  match s with
  | EmptyString => if String.prefix p s then Some (i, i + len p) else None
  | String _ s' =>
      match rsearch_from p s' (i + 1) with
      | Some sp => Some sp
      | None => if String.prefix p s then Some (i, i + len p) else None
      end
  end.

Definition re_search_reverse (p s : string) : option (Z * Z) :=
  rsearch_from p s 0.

(** Slice bounds as Python clamps them: a negative index counts from the
    end, and both ends are cut to [0, len]. *)
Definition slice_index (n i : Z) : Z :=
  if i <? 0 then Z.max 0 (i + n) else Z.min i n.

(** [s[a:b]] *)
Definition py_slice (a b : Z) (s : string) : string :=
  let a' := slice_index (len s) a in
  let b' := slice_index (len s) b in
  if a' <? b' then substring (Z.to_nat a') (Z.to_nat (b' - a')) s
  else EmptyString.

Fixpoint lstrip (s : string) : string :=
  match s with
  | String c s' => if py_isspace c then lstrip s' else s
  | EmptyString => EmptyString
  end.

Definition rstrip (s : string) : string :=
  text_of (rev (chars (lstrip (text_of (rev (chars s)))))).

(** [s.strip()] *)
Definition py_strip (s : string) : string := rstrip (lstrip s).

(** [sep.join(l)] *)
Fixpoint py_join (sep : string) (l : list string) : string :=
  match l with
  | [] => EmptyString
  | [x] => x
  | x :: l' => x +:+ sep +:+ py_join sep l'
  end.

(** [s.replace(a, b)] for one-character [a]. *)
Fixpoint replace_char (a : ascii) (b : string) (s : string) : string :=
  match s with
  | EmptyString => EmptyString
  | String c s' =>
      (if Ascii.eqb c a then b else String c EmptyString) +:+ replace_char a b s'
  end.

(** Whitespace-separated words, as BeautifulSoup splits a [class]
    attribute. *)
Fixpoint words_aux (cur : list ascii) (s : string) : list string :=
  match s with
  | EmptyString => match cur with [] => [] | _ => [text_of (rev cur)] end
  | String c s' =>
      if py_isspace c
      then match cur with
           | [] => words_aux [] s'
           | _ => text_of (rev cur) :: words_aux [] s'
           end
      else words_aux (c :: cur) s'
  end.

Definition words (s : string) : list string := words_aux [] s.

(** ** Exceptions

    Every constructor stands for a subclass of Python's [Exception], so
    an [except Exception] clause catches each of them. *)
Inductive exn : Type :=
  | AttributeError
  | TypeError
  | IndexError
  | KeyError
  | ValueError
  | UnboundLocalError
  | OtherException (name : string).   (* any other subclass *)

Inductive result (A : Type) : Type :=
  | Ok (a : A)
  | Raise (e : exn).
Arguments Ok {A} a.
Arguments Raise {A} e.

(** ** Regular expressions

    The constructs the scraper's patterns are built from.  Repetition is
    only ever applied to a character class in the source. *)
Inductive regex : Type :=
  | Lit (s : string)                 (* literal text *)
  | Cls (p : ascii -> bool)          (* one character of a class *)
  | Cat (r1 r2 : regex)              (* r1 r2 *)
  | Alt (r1 r2 : regex)              (* r1 | r2 *)
  | Many (p : ascii -> bool)         (* [p]* , greedy *)
  | Many1 (p : ascii -> bool)        (* [p]+ , greedy *)
  | Few (p : ascii -> bool)          (* [p]*? , lazy *)
  | Ahead (r : regex)                (* (?=r) *)
  | Behind (s : string).             (* (?<=s) *)

Fixpoint strip_prefix (p s : string) : option string :=
  match p, s with
  | EmptyString, _ => Some s
  | String a p', String b s' => if Ascii.eqb a b then strip_prefix p' s' else None
  | String _ _, EmptyString => None
  end.

Fixpoint starts_with (p l : list ascii) : bool :=
  match p, l with
  | [], _ => true
  | a :: p', b :: l' => Ascii.eqb a b && starts_with p' l'
  | _ :: _, [] => false
  end.

Section Matcher.
Context {R : Type}.

(** Backtracking over how many characters a repetition takes: the
    continuation [k] is tried longest-first ([many]) or shortest-first
    ([few]).  [b] is the text before the cursor, nearest first. *)
Fixpoint many (p : ascii -> bool) (b : list ascii) (s : string)
    (k : list ascii -> string -> option R) : option R :=
  match s with
  | String c s' =>
      if p c
      then match many p (c :: b) s' k with
           | Some x => Some x
           | None => k b s
           end
      else k b s
  | EmptyString => k b s
  end.

Fixpoint few (p : ascii -> bool) (b : list ascii) (s : string)
    (k : list ascii -> string -> option R) : option R :=
  match k b s with
  | Some x => Some x
  | None =>
      match s with
      | String c s' => if p c then few p (c :: b) s' k else None
      | EmptyString => None
      end
  end.
End Matcher.

Fixpoint mt (r : regex) {R : Type} (b : list ascii) (s : string)
    (k : list ascii -> string -> option R) : option R :=
  match r with
  | Lit l =>
      match strip_prefix l s with
      | Some s' => k (rev_append (chars l) b) s'
      | None => None
      end
  | Cls p =>
      match s with
      | String c s' => if p c then k (c :: b) s' else None
      | EmptyString => None
      end
  | Cat r1 r2 => mt r1 b s (fun b' s' => mt r2 b' s' k)
  | Alt r1 r2 =>
      match mt r1 b s k with
      | Some x => Some x
      | None => mt r2 b s k
      end
  | Many p => many p b s k
  | Many1 p =>
      match s with
      | String c s' => if p c then many p (c :: b) s' k else None
      | EmptyString => None
      end
  | Few p => few p b s k
  | Ahead r1 =>
      match mt r1 b s (fun _ _ => Some tt) with
      | Some _ => k b s
      | None => None
      end
  | Behind l => if starts_with (rev (chars l)) b then k b s else None
  end.

(** The text matched at the cursor, if the pattern matches there. *)
Definition match_at (r : regex) (b : list ascii) (s : string) : option string :=
  mt r b s (fun b' _ =>
    Some (text_of (rev (firstn (List.length b' - List.length b)%nat b')))).

(** [regex.findall(r, s)]: leftmost matches, scanning left to right;
    [skip] counts the characters still covered by the previous match. *)
Fixpoint findall_from (r : regex) (b : list ascii) (s : string) (skip : nat)
    : list string :=
  match skip with
  | S n =>
      match s with
      | String c s' => findall_from r (c :: b) s' n
      | EmptyString => []
      end
  | O =>
      match match_at r b s with
      | Some m =>
          m :: match s with
               | String c s' => findall_from r (c :: b) s' (pred (String.length m))
               | EmptyString => []
               end
      | None =>
          match s with
          | String c s' => findall_from r (c :: b) s' 0
          | EmptyString => []
          end
      end
  end.

Definition re_findall (r : regex) (s : string) : list string :=
  findall_from r [] s 0.

(** [regex.sub(r, repl, s)] for patterns that never match the empty
    string (all patterns the scraper substitutes are of that kind). *)
Fixpoint sub_from (r : regex) (repl : string) (b : list ascii) (s : string)
    (skip : nat) : string :=
  match s with
  | EmptyString => EmptyString
  | String c s' =>
      match skip with
      | S n => sub_from r repl (c :: b) s' n
      | O =>
          match match_at r b s with
          | Some (String _ m') =>
              repl +:+ sub_from r repl (c :: b) s' (String.length m')
          | _ => String c (sub_from r repl (c :: b) s' 0)
          end
      end
  end.

Definition re_sub (r : regex) (repl s : string) : string :=
  sub_from r repl [] s 0.

(** The patterns of scraper.py. *)
Definition squote : ascii := "'"%char.
Definition dquote : ascii := "034"%char.

(** [,] *)
Definition re_comma : regex := Lit ",".
(** [\s] *)
Definition re_space : regex := Cls is_space.
(** [\s+] *)
Definition re_spaces : regex := Many1 is_space.
(** A single quote or a double quote, written as an alternation (line
    175) and as a class (line 183). *)
Definition re_quote : regex :=
  Alt (Lit (String squote EmptyString)) (Lit (String dquote EmptyString)).
Definition re_quote_class : regex :=
  Cls (fun c => is_char squote c || is_char dquote c).
(** [[0-9]+[.][0-9]*] *)
Definition re_decimal : regex :=
  Cat (Many1 is_digit) (Cat (Cls (is_char ".")) (Many is_digit)).


(** [[Uuma0-9.,]+(?= comentário| review)] and
    [[Uuma0-9.,]+(?= foto| photo)] *)
Definition is_count_char (c : ascii) : bool :=
  is_char "U" c || is_char "u" c || is_char "m" c || is_char "a" c
  || is_digit c || is_char "." c || is_char "," c.
Definition re_user_reviews : regex :=
  Cat (Many1 is_count_char) (Ahead (Alt (Lit " comentário") (Lit " review"))).
Definition re_user_photos : regex :=
  Cat (Many1 is_count_char) (Ahead (Alt (Lit " foto") (Lit " photo"))).
(** [(?<=postId=).*?(?=&)] *)
Definition re_post_id : regex :=
  Cat (Behind "postId=") (Cat (Few not_newline) (Ahead (Lit "&"))).
(** [(?<=place/).*?(?=/)] *)
Definition re_place_name : regex :=
  Cat (Behind "place/") (Cat (Few not_newline) (Ahead (Lit "/"))).
(** [0[xX][0-9a-fA-F]+:0[xX][0-9a-fA-F]+] *)
Definition re_hex : regex :=
  Cat (Lit "0") (Cat (Cls (fun c => is_char "x" c || is_char "X" c))
                     (Many1 is_hexdigit)).
Definition re_feature_id : regex := Cat re_hex (Cat (Lit ":") re_hex).

(** ** Numbers read from text *)

(** Digits with single underscores between them, as [int] accepts. *)
Fixpoint digits_value (acc : Z) (after_digit : bool) (s : string) : option Z :=
  match s with
  | EmptyString => if after_digit then Some acc else None
  | String c s' =>
      if is_digit c
      then digits_value (10 * acc + (Z.of_nat (code c) - 48)) true s'
      else if is_char "_" c && after_digit
           then digits_value acc false s'
           else None
  end.

Definition signed (s : string) : bool * string :=
  match s with
  | String "-" s' => (true, s')
  | String "+" s' => (false, s')
  | _ => (false, s)
  end.

(** [int(s)] *)
Definition py_int (s : string) : result Z :=
  let '(neg, body) := signed (py_strip s) in
  match digits_value 0 false body with
  | Some n => Ok (if neg then - n else n)
  | None => Raise ValueError
  end.

(** Value and number of the leading digits of [s], and what follows. *)
Fixpoint read_digits (acc : Z) (n : nat) (s : string) : Z * nat * string :=
  match s with
  | String c s' =>
      if is_digit c
      then read_digits (10 * acc + (Z.of_nat (code c) - 48)) (S n) s'
      else (acc, n, s)
  | EmptyString => (acc, n, s)
  end.

(** [float(s)] on a plain decimal literal: optional sign, digits with an
    optional point.  The value is the exact rational in lowest terms.
    Literals with an exponent, infinities and NaN are not covered (they
    raise here); the rating pattern never produces one. *)
Definition py_float (s : string) : result Q :=
  let '(neg, body) := signed (py_strip s) in
  let '(ip, ni, rest) := read_digits 0 0 body in
  let '(num, nf, rest') :=
    match rest with
    | String "." f => read_digits ip 0 f
    | _ => (ip, 0%nat, rest)
    end in
  match rest', (ni + nf)%nat with
  | EmptyString, S _ =>
      Ok (Qred ((if neg then - num else num) # Z.to_pos (10 ^ Z.of_nat nf)))
  | _, _ => Raise ValueError
  end.

(** ** The document tree of BeautifulSoup and lxml *)

#[local] Unset Elimination Schemes.
Inductive node : Type :=
  | NavigableString (s : string)
  | Comment (s : string)
  | Tag (name : string) (attrs : list (string * string)) (children : list node).
#[local] Set Elimination Schemes.

Definition is_tag (n : node) : bool :=
  match n with Tag _ _ _ => true | _ => false end.

Definition tag_name (n : node) : string :=
  match n with Tag nm _ _ => nm | _ => EmptyString end.

(** [n.attrs] / [n.attrib] *)
Definition attrib (n : node) : list (string * string) :=
  match n with Tag _ a _ => a | _ => [] end.

(** [n.contents] *)
Definition contents (n : node) : list node :=
  match n with Tag _ _ cs => cs | _ => [] end.

Fixpoint assoc (k : string) (l : list (string * string)) : option string :=
  match l with
  | [] => None
  | (k', v) :: l' => if String.eqb k k' then Some v else assoc k l'
  end.

(** [n.get(k)] *)
Definition get_attr (k : string) (n : node) : option string := assoc k (attrib n).

(** [n.has_attr(k)] *)
Definition has_attr (k : string) (n : node) : bool :=
  match get_attr k n with Some _ => true | None => false end.

(** [n.descendants]: every node below [n], in document order. *)
Fixpoint descendants (n : node) : list node :=
  match n with
  | Tag _ _ cs => flat_map (fun c => c :: descendants c) cs
  | _ => []
  end.

Definition string_of_node (n : node) : option string :=
  match n with NavigableString s => Some s | _ => None end.

(** The text nodes below [n] (comments are not among them). *)
Definition all_strings (n : node) : list string :=
  omap string_of_node (descendants n).

(** [n.text] *)
Definition get_text (n : node) : string :=
  fold_right String.append EmptyString (all_strings n).

(** [n.stripped_strings]: each text node stripped, blank ones dropped. *)
Definition stripped_strings (n : node) : list string :=
  List.filter (fun s => negb (String.eqb s EmptyString))
              (map py_strip (all_strings n)).

(** BeautifulSoup compares a [class] filter with each class of the
    element and with the classes joined by one space. *)
Definition class_matches (c : string) (n : node) : bool :=
  match get_attr "class" n with
  | Some v =>
      existsb (String.eqb c) (words v) || String.eqb c (py_join " " (words v))
  | None => false
  end.

Definition attr_matches (k v : string) (n : node) : bool :=
  if String.eqb k "class" then class_matches v n
  else match get_attr k n with
       | Some v' => String.eqb v v'
       | None => false
       end.

(** [n.find(...)]: the first element below [n] passing the filter. *)
Definition find (f : node -> bool) (n : node) : option node :=
  head (List.filter (fun d => is_tag d && f d) (descendants n)).

(** [n.find(True, class_=c)] *)
Definition find_class (c : string) (n : node) : option node :=
  find (class_matches c) n.

(** [n.find(True, {k: True})] *)
Definition find_with_attr (k : string) (n : node) : option node :=
  find (has_attr k) n.

(** [n.find(True, k=v)] *)
Definition find_attr (k v : string) (n : node) : option node :=
  find (attr_matches k v) n.

(** [soup.find("div", attrs)] *)
Definition find_div (attrs : list (string * string)) (soup : node) : option node :=
  find (fun d => String.eqb (tag_name d) "div"
                 && forallb (fun kv => attr_matches (fst kv) (snd kv) d) attrs)
       soup.

(** One step [/name] or [/name[k]] of a positional path: the children
    called [name] of every context node, all of them or the [k]-th. *)
Definition children_named (nm : string) (n : node) : list node :=
  List.filter (fun c => is_tag c && String.eqb (tag_name c) nm) (contents n).

Definition xpath_step (nm : string) (k : option nat) (ctx : list node) : list node :=
  flat_map (fun n =>
    match k with
    | None => children_named nm n
    | Some i => option_list (nth_error (children_named nm n) (pred i))
    end) ctx.

(** [tree.xpath("/html/body/div[1]/div/div[2]/div[4]/div/div[2]/div")];
    [tree] is the root element of the lxml document. *)
Definition xpath_reviews (tree : node) : list node :=
  let root := if String.eqb (tag_name tree) "html" then [tree] else [] in
  xpath_step "div" None
   (xpath_step "div" (Some 2%nat)
    (xpath_step "div" None
     (xpath_step "div" (Some 4%nat)
      (xpath_step "div" (Some 2%nat)
       (xpath_step "div" None
        (xpath_step "div" (Some 1%nat)
         (xpath_step "body" None root))))))).

(** [tree.xpath("//*[@data-google-review-count]")] *)
Definition xpath_with_attr (k : string) (tree : node) : list node :=
  List.filter (fun d => is_tag d && has_attr k d) (tree :: descendants tree).

(** ** Values and dictionaries

    A dictionary keeps its keys in insertion order.  A list value is a
    reference to a list object of the heap: copying a dictionary copies
    the reference, not the list. *)
Definition loc : Type := nat.

Inductive value : Type :=
  | VNone
  | VStr (s : string)
  | VFloat (q : Q)
  | VInt (z : Z)
  | VBool (b : bool)
  | VList (l : loc).

Definition pydict : Type := list (string * value).

(** [d[k]] read *)
Fixpoint dict_get (k : string) (d : pydict) : option value :=
  match d with
  | [] => None
  | (k', v) :: d' => if String.eqb k k' then Some v else dict_get k d'
  end.

(** [d[k] = v] *)
Fixpoint dict_set (k : string) (v : value) (d : pydict) : pydict :=
  match d with
  | [] => [(k, v)]
  | (k', v') :: d' =>
      if String.eqb k k' then (k, v) :: d' else (k', v') :: dict_set k v d'
  end.

(** [d.copy()]: a new dictionary holding the same values. *)
Definition dict_copy (d : pydict) : pydict := d.

(** [d.values()] *)
Definition dict_values (d : pydict) : list value := map snd d.

(** Modelled from the spec: [review_default_result] of src/config.py,
    which is not among the sources.  The spec's ReviewRecord gives the
    fields and their defaults (every field missing, [user_is_local_guide]
    false, [errors] a list); the column order is the one of [full_cols]
    in analysis_config.py.  The [errors] list is created once, when the
    module is loaded, at address [errors_loc]. *)
Definition errors_loc : loc := 0%nat.

Definition review_default_result : pydict :=
  [ ("token", VNone); ("review_id", VNone); ("retrieval_date", VNone);
    ("rating", VNone); ("rating_max", VNone); ("relative_date", VNone);
    ("likes", VNone); ("other_ratings", VNone);
    ("trip_type_travel_group", VNone); ("user_name", VNone);
    ("user_is_local_guide", VBool false); ("user_reviews", VNone);
    ("user_photos", VNone); ("user_url", VNone); ("text", VNone);
    ("response_text", VNone); ("response_relative_date", VNone);
    ("errors", VList errors_loc) ].

(** ** The world: heap, clock and I/O trace *)

Inductive log_record : Type :=
  | LogScraping (url_name : string)           (* line 336 *)
  | LogRequest (i j : nat)                    (* line 346 *)
  | LogRequestError (i : nat) (e : exn)       (* lines 358-359 *)
  | LogWaiting                                (* line 360 *)
  | LogParsingError (i : nat) (e : exn)       (* lines 377-378 *)
  | LogReviewLimit (j : nat)                  (* line 381 *)
  | LogDone (requests j : nat)                (* lines 387-389 *)
  | LogReviewError (tb : string).             (* line 182 *)

Inductive event : Type :=
  | EvLog (r : log_record)
  | EvSleep (seconds : Q)
  | EvRequest (token query : string)   (* requests.get(query) *)
  | EvRow (row : pydict) (errors : list string)
      (* writer.writerow(result.values()); [errors] is what the list held
         in the [errors] column contains at that moment *)
  | EvFlush                            (* file.flush() *)
  | EvErrorFile (path : string) (review : option node).
      (* the file written by _handle_review_exception holds str(review) *)

Record world : Type := {
  heap : gmap loc (list string);   (* the list objects *)
  clock : nat;                     (* clock readings so far *)
  n_http : nat;                    (* HTTP requests so far *)
  trace : list event;              (* what was done, oldest first *)
}.

(** What lies outside the repository. *)
Record Env : Type := {
  (** body of the [k]-th HTTP request, decoded, or the exception raised
      by [requests.get] or by the decoding *)
  requests_get : nat -> string -> result string;
  (** [BeautifulSoup(text, "lxml")]: the document object *)
  soup_parse : string -> node;
  (** [html.document_fromstring(text)]: the root element *)
  lxml_parse : string -> result node;
  (** [traceback.format_exc()] while the exception is handled *)
  format_exc : exn -> string;
  (** [str(datetime.now())] and the [strftime] stamp, at the [k]-th
      reading of the clock *)
  now_str : nat -> string;
  now_stamp : nat -> string;
  (** [urllib.parse.unquote_plus] *)
  unquote_plus : string -> string;
  (** [sort_by_enum] of src/config.py *)
  sort_by_enum : list (string * Z);
}.

(** The attributes of a [GoogleMapsAPIScraper] object. *)
Record scraper : Type := {
  hl : string;
  request_interval : Q;
  n_retries : Z;
  retry_time : Q;
}.

(** ** Computations: state and exceptions *)

Definition M (A : Type) : Type := world -> result A * world.

Definition ret {A} (a : A) : M A := fun w => (Ok a, w).

Definition raise {A} (e : exn) : M A := fun w => (Raise e, w).

Definition bind {A B} (m : M A) (f : A -> M B) : M B :=
  fun w => match m w with
           | (Ok a, w') => f a w'
           | (Raise e, w') => (Raise e, w')
           end.

Notation "x <- m ;; k" := (bind m (fun x => k))
  (at level 100, m at next level, right associativity).
Notation "m ;; k" := (bind m (fun _ => k))
  (at level 100, right associativity).

(** [try: m  except Exception as e: h e] *)
Definition try_except {A} (m : M A) (h : exn -> M A) : M A :=
  fun w => match m w with
           | (Ok a, w') => (Ok a, w')
           | (Raise e, w') => h e w'
           end.

Definition lift {A} (r : result A) : M A := fun w => (r, w).

Definition emit (e : event) : M unit :=
  fun w => (Ok tt, {| heap := heap w; clock := clock w; n_http := n_http w;
                      trace := trace w ++ [e] |}).

Definition log (r : log_record) : M unit := emit (EvLog r).

Definition sleep (d : Q) : M unit := emit (EvSleep d).

(** Reads the clock. *)
Definition tick : M nat :=
  fun w => (Ok (clock w), {| heap := heap w; clock := S (clock w);
                             n_http := n_http w; trace := trace w |}).

(** [v.append(x)]: only a list has the method. *)
Definition list_append (v : value) (x : string) : M unit :=
  fun w =>
    match v with
    | VList l =>
        match heap w !! l with
        | Some xs => (Ok tt, {| heap := <[l := xs ++ [x]]> (heap w);
                                clock := clock w; n_http := n_http w;
                                trace := trace w |})
        | None => (Raise AttributeError, w)
        end
    | _ => (Raise AttributeError, w)
    end.

(** What a list value holds now. *)
Definition list_contents (v : value) (w : world) : list string :=
  match v with
  | VList l => default [] (heap w !! l)
  | _ => []
  end.

(** ** Results of pure steps *)

Definition rbind {A B} (r : result A) (f : A -> result B) : result B :=
  match r with
  | Ok a => f a
  | Raise e => Raise e
  end.

(** A method call or attribute access on [o]: [None] has neither. *)
Definition deref {A} (o : option A) : result A :=
  match o with
  | Some a => Ok a
  | None => Raise AttributeError
  end.

(** A [str] argument of a regex function: [None] is a [TypeError]. *)
Definition as_str (o : option string) : result string :=
  match o with
  | Some s => Ok s
  | None => Raise TypeError
  end.

(** [l[i]] *)
Definition index {A} (l : list A) (i : nat) : result A :=
  match nth_error l i with
  | Some a => Ok a
  | None => Raise IndexError
  end.

(** [d[k]] *)
Definition dict_item (k : string) (d : pydict) : result value :=
  match dict_get k d with
  | Some v => Ok v
  | None => Raise KeyError
  end.

(** [attrib[k]] *)
Definition attrib_item (k : string) (n : node) : result string :=
  match get_attr k n with
  | Some v => Ok v
  | None => Raise KeyError
  end.

Definition opt_str (o : option string) : value :=
  match o with
  | Some s => VStr s
  | None => VNone
  end.

(** ** The body of a [try] block of _parse_review

    A body reads the review and assigns to keys of [result]; it ends
    normally or by an exception.  It is the list of the assignments it
    made, in order, and how it ended. *)
Definition W (A : Type) : Type := list (string * value) * result A.

Definition w_ret {A} (a : A) : W A := ([], Ok a).

Definition w_bind {A B} (m : W A) (f : A -> W B) : W B :=
  match m with
  | (l, Ok a) => (l ++ fst (f a), snd (f a))
  | (l, Raise e) => (l, Raise e)
  end.

(** [result[k] = v] *)
Definition assign (k : string) (v : value) : W unit := ([(k, v)], Ok tt).

Definition w_lift {A} (r : result A) : W A := ([], r).

Notation "x <~ m ;; k" := (w_bind m (fun x => k))
  (at level 100, m at next level, right associativity).
Notation "m ;;; k" := (w_bind m (fun _ => k))
  (at level 100, right associativity).

Definition apply_assigns (l : list (string * value)) (d : pydict) : pydict :=
  fold_left (fun d kv => dict_set (fst kv) (snd kv) d) l d.

(** ** scraper.py *)

Definition str_of_int (z : Z) : string := NilZero.string_of_int (Z.to_int z).

(** [_cut_response] (lines 108-113).  [m] is [None] when the text has no
    closing tag, and [m.span()] then raises. *)
Definition _cut_response (text : string) : result string :=
  let idx_first_div := str_find "<div " text in
  rbind (deref (re_search_reverse "</div>" text)) (fun m =>
  let idx_last_div := snd m in
  let text := py_slice idx_first_div idx_last_div text in
  Ok ("<html><body>" +:+ text +:+ "</body></html>")).

(** [_parse_url_to_feature_id] (lines 55-56) *)
Definition _parse_url_to_feature_id (url : string) : result string :=
  index (re_findall re_feature_id url) 0.

(** The loop of [_parse_review_text] (lines 167-172) over the pairs of
    [zip(text_block.contents, text_block.stripped_strings)]. *)
Fixpoint text_loop (pairs : list (node * string)) (text : string) : string :=
  match pairs with
  | [] => text
  | (e, s) :: rest =>
      if is_tag e && has_attr "class" e
      then text
      else text_loop rest (text +:+ s +:+ " ")
  end.

(** [_parse_review_text] (lines 165-177) *)
Definition _parse_review_text (text_block : node) : string :=
  let text :=
    text_loop (zip (contents text_block) (stripped_strings text_block))
              EmptyString in
  let text := re_sub re_space " " text in
  let text := re_sub re_quote EmptyString text in
  py_strip text.

(** The bodies of the ten [try] blocks of [_parse_review]. *)

(** lines 195-201 *)
Definition text_body (review : option node) : W unit :=
  r <~ w_lift (deref review) ;;
  let text_block := find_class "review-full-text" r in
  let text_block :=
    match text_block with
    | Some t => Some t
    | None => find_with_attr "data-expandable-section" r
    end in
  match text_block with
  | Some t => assign "text" (VStr (_parse_review_text t))
  | None => w_ret tt
  end.

(** The rating label after line 208, and the numbers found in it. *)
Definition rating_numbers (rating_text : string) : list string :=
  re_findall re_decimal (re_sub re_comma "." rating_text).

(** lines 208-211, from the label read on line 207 *)
Definition rating_of_label (label : option string) : W unit :=
  rating_text <~ w_lift (as_str label) ;;
  let rating := rating_numbers rating_text in
  x <~ w_lift (rbind (index rating 0) py_float) ;;
  assign "rating" (VFloat x) ;;;
  y <~ w_lift (rbind (index rating 1) py_float) ;;
  assign "rating_max" (VFloat y).

(** lines 207-211 *)
Definition rating_body (review : option node) : W unit :=
  r <~ w_lift (deref review) ;;
  n <~ w_lift (deref (find_class "Fam1ne EBe2gf" r)) ;;
  rating_of_label (get_attr "aria-label" n).

Definition joined_strings (n : node) : string :=
  re_sub re_spaces " " (py_join " " (stripped_strings n)).

(** lines 217-220 *)
Definition other_ratings_body (review : option node) : W unit :=
  r <~ w_lift (deref review) ;;
  match find_class "k8MTF" r with
  | Some other_ratings => assign "other_ratings" (VStr (joined_strings other_ratings))
  | None => w_ret tt
  end.

(** line 226 *)
Definition relative_date_body (review : option node) : W unit :=
  r <~ w_lift (deref review) ;;
  n <~ w_lift (deref (find_class "dehysf lTi8oc" r)) ;;
  assign "relative_date" (VStr (get_text n)).

(** line 232 *)
Definition user_name_body (review : option node) : W unit :=
  r <~ w_lift (deref review) ;;
  n <~ w_lift (deref (find_class "TSUbDb" r)) ;;
  assign "user_name" (VStr (get_text n)).

(** lines 238-251 *)
Definition user_data_body (review : option node) : W unit :=
  r <~ w_lift (deref review) ;;
  match find_class "Msppse" r with
  | Some user_node =>
      assign "user_url" (opt_str (get_attr "href" user_node)) ;;;
      assign "user_is_local_guide"
             (VBool (match find_class "QV3IV" user_node with
                     | Some _ => true
                     | None => false
                     end)) ;;;
      let user_reviews := re_findall re_user_reviews (get_text user_node) in
      let user_photos := re_findall re_user_photos (get_text user_node) in
      match user_reviews with
      | x :: _ => assign "user_reviews" (VStr x)
      | [] => w_ret tt
      end ;;;
      match user_photos with
      | x :: _ => assign "user_photos" (VStr x)
      | [] => w_ret tt
      end
  | None => w_ret tt
  end.

(** lines 258-259 *)
Definition review_id_body (review : option node) : W unit :=
  r <~ w_lift (deref review) ;;
  n <~ w_lift (deref (find_class "RvU3D" r)) ;;
  review_id <~ w_lift (as_str (get_attr "href" n)) ;;
  x <~ w_lift (index (re_findall re_post_id review_id) 0) ;;
  assign "review_id" (VStr x).

(** lines 265-267 *)
Definition likes_body (review : option node) : W unit :=
  r <~ w_lift (deref review) ;;
  match find_attr "jsname" "CMh1ye" r with
  | Some review_likes =>
      z <~ w_lift (py_int (get_text review_likes)) ;;
      assign "likes" (VInt z)
  | None => w_ret tt
  end.

(** lines 273-278 *)
Definition response_body (review : option node) : W unit :=
  r <~ w_lift (deref review) ;;
  match find_class "d6SCIc" r with
  | Some response => assign "response_text" (VStr (_parse_review_text response))
  | None => w_ret tt
  end ;;;
  match find_class "pi8uOe" r with
  | Some response_date => assign "response_relative_date" (VStr (get_text response_date))
  | None => w_ret tt
  end.

(** lines 284-287 *)
Definition trip_body (review : option node) : W unit :=
  r <~ w_lift (deref review) ;;
  match find_class "PV7e7" r with
  | Some t => assign "trip_type_travel_group" (VStr (joined_strings t))
  | None => w_ret tt
  end.

(** The [overall_rating] block of [_parse_place] (lines 137-138): the
    text of the rating element, read as a number. *)
Definition overall_rating_of (rating_element_text : string) : result Q :=
  py_float (replace_char "," "." rating_element_text).

Section Scraper.
Context (E : Env) (self : scraper).

(** [requests.get(query)] and the decoding of the body (lines 84-86). *)
Definition http_get (token query : string) : M string :=
  fun w => (requests_get E (n_http w) query,
            {| heap := heap w; clock := clock w; n_http := S (n_http w);
               trace := trace w ++ [EvRequest token query] |}).

(** [_get_api_response] (lines 62-106) *)
Definition _get_api_response (feature_id async_ hl0 sort_by_id
    associated_topic token : string)
    : M (node * list (option node) * Z * string) :=
  let hl0 := if String.eqb hl0 EmptyString then hl self else hl0 in
  let query :=
    "https://www.google.com/async/reviewDialog?"
    +:+ "hl=" +:+ hl0 +:+ "&"
    +:+ "async=" +:+ async_
    +:+ "feature_id:" +:+ feature_id +:+ ","
    +:+ "sort_by:" +:+ sort_by_id +:+ ","
    +:+ "next_page_token:" +:+ token +:+ ","
    +:+ "associated_topic:" +:+ associated_topic +:+ ","
    +:+ "_fmt:pc" in
  response <- http_get token query ;;
  response <- lift (_cut_response response) ;;
  let response_soup := soup_parse E response in
  tree <- lift (lxml_parse E response) ;;
  metadata_node <- lift (index (xpath_with_attr "data-google-review-count" tree) 0) ;;
  review_count <-
    lift (rbind (attrib_item "data-google-review-count" metadata_node) py_int) ;;
  next_token <- lift (attrib_item "data-next-page-token" metadata_node) ;;
  let reviews_tree := xpath_reviews tree in
  let reviews_soup := map (fun r => find_div (attrib r) response_soup) reviews_tree in
  ret (response_soup, reviews_soup, review_count, next_token).

(** [_handle_review_exception] (lines 179-188), entered while [e] is
    being handled. *)
Definition _handle_review_exception (result : pydict) (review : option node)
    (name : string) (e : exn) : M pydict :=
  let tb := re_sub re_space " " (format_exc E e) in
  let tb := "review " +:+ name +:+ ":" +:+ tb in
  log (LogReviewError tb) ;;
  let tb := re_sub re_quote_class " " tb in
  errors <- lift (dict_item "errors" result) ;;
  list_append errors tb ;;
  k <- tick ;;
  let ts := now_stamp E k in
  emit (EvErrorFile ("examples/error_" +:+ name +:+ "_" +:+ ts +:+ ".html") review) ;;
  ret result.

(** One [try: body  except Exception: self._handle_review_exception(...)]
    of [_parse_review]: the assignments the body made stay in [result]. *)
Definition try_block (review : option node) (name : string) (body : W unit)
    (result : pydict) : M pydict :=
  let result := apply_assigns (fst body) result in
  match snd body with
  | Ok _ => ret result
  | Raise e => _handle_review_exception result review name e
  end.

(** [_parse_review] (lines 190-294) *)
Definition _parse_review (review : option node) : M pydict :=
  let result := dict_copy review_default_result in
  result <- try_block review "text" (text_body review) result ;;
  result <- try_block review "rating" (rating_body review) result ;;
  result <- try_block review "other_ratings" (other_ratings_body review) result ;;
  result <- try_block review "relative_date" (relative_date_body review) result ;;
  result <- try_block review "user_name" (user_name_body review) result ;;
  result <- try_block review "user_data" (user_data_body review) result ;;
  result <- try_block review "review_id" (review_id_body review) result ;;
  result <- try_block review "likes" (likes_body review) result ;;
  result <- try_block review "response" (response_body review) result ;;
  result <- try_block review "trip_type_travel_group" (trip_body review) result ;;
  k <- tick ;;
  ret (dict_set "retrieval_date" (VStr (now_str E k)) result).

(** [_parse_sort_by] (lines 58-60) *)
Definition _parse_sort_by (sort_by : string) : Z :=
  default 1 (snd <$> List.find (fun kv => String.eqb sort_by (fst kv)) (sort_by_enum E)).

(** [writer.writerow(result.values())] *)
Definition write_row (result : pydict) : M unit :=
  fun w => emit (EvRow result (list_contents (default VNone (dict_get "errors" result)) w)) w.

(** The local variables of a [scrape_reviews] call that the page loop
    reads and writes.  [reviews_soup] and [review_count] are unbound
    until a fetch has succeeded. *)
Record locals : Type := {
  reviews_soup : option (list (option node));
  review_count : option Z;
  token : string;
  j : nat;
  results : list pydict;
}.

(** The [while n > 0] loop (lines 347-362): the page of the first
    attempt that succeeds, [None] when all [n] attempts raised. *)
Fixpoint fetch_retrying (n : nat) (i : nat) (feature_id hl0 sort_by_id tok : string)
    : M (option (node * list (option node) * Z * string)) :=
  match n with
  | O => ret None
  | S n' =>
      try_except
        (p <- _get_api_response feature_id EmptyString hl0 sort_by_id EmptyString tok ;;
         ret (Some p))
        (fun e =>
           log (LogRequestError i e) ;;
           log LogWaiting ;;
           sleep (retry_time self) ;;
           fetch_retrying n' i feature_id hl0 sort_by_id tok)
  end.

(** The [for review in reviews_soup] loop (lines 365-375).  [j] and
    [results] keep what was done before an exception leaves the loop, so
    the loop returns them together with that exception. *)
Fixpoint review_loop (reviews : list (option node)) (tok : string) (j0 : nat)
    (results0 : list pydict) : M (nat * list pydict * option exn) :=
  match reviews with
  | [] => ret (j0, results0, None)
  | review :: rest =>
      fun w =>
        match _parse_review review w with
        | (Raise e, w') => (Ok (j0, results0, Some e), w')
        | (Ok result, w') =>
            (let result := dict_set "token" (VStr tok) result in
             write_row result ;;
             emit EvFlush ;;
             review_loop rest tok (S j0) (results0 ++ [result])) w'
        end
  end.

(** The [try] statement of lines 364-378. *)
Definition parse_page (i : nat) (v : locals) : M locals :=
  match reviews_soup v with
  | None => log (LogParsingError i UnboundLocalError) ;; ret v
  | Some reviews =>
      r <- review_loop reviews (token v) (j v) (results v) ;;
      let v' := {| reviews_soup := reviews_soup v; review_count := review_count v;
                   token := token v; j := fst (fst r); results := snd (fst r) |} in
      match snd r with
      | Some e => log (LogParsingError i e) ;; ret v'
      | None => ret v'
      end
  end.

Definition bound {A} (o : option A) : result A :=
  match o with
  | Some a => Ok a
  | None => Raise UnboundLocalError
  end.

(** One pass through the body of [for i in range(n_requests)] (lines
    346-385); the flag tells whether it ended in [break]. *)
Definition page_iteration (feature_id hl0 sort_by_id : string) (i : nat)
    (v : locals) : M (bool * locals) :=
  log (LogRequest i (j v)) ;;
  fetched <- fetch_retrying (Z.to_nat (n_retries self)) i feature_id hl0
                            sort_by_id (token v) ;;
  let v :=
    match fetched with
    | Some (_, rs, rc, tok) =>
        {| reviews_soup := Some rs; review_count := Some rc; token := tok;
           j := j v; results := results v |}
    | None => v
    end in
  v <- parse_page i v ;;
  rc <- lift (bound (review_count v)) ;;
  if (rc <? 10) || String.eqb (token v) EmptyString
  then log (LogReviewLimit (j v)) ;; ret (true, v)
  else sleep (request_interval self) ;; ret (false, v).

(** The [for] loop; [last] is the value of [i], unbound before the first
    pass. *)
Fixpoint for_loop (feature_id hl0 sort_by_id : string) (range : list nat)
    (last : option nat) (v : locals) : M (option nat * locals) :=
  match range with
  | [] => ret (last, v)
  | i :: rest =>
      r <- page_iteration feature_id hl0 sort_by_id i v ;;
      if fst r then ret (Some i, snd r)
      else for_loop feature_id hl0 sort_by_id rest (Some i) (snd r)
  end.

(** [math.ceil(n_reviews / 10)], exact for every count below 2^53. *)
Definition n_requests_of (n_reviews : Z) : Z := (n_reviews + 9) / 10.

(** [scrape_reviews] (lines 324-391); the writer and the file are the
    row and flush events of the trace. *)
Definition scrape_reviews (url : string) (n_reviews : Z) (hl0 sort_by tok : string)
    : M (list pydict) :=
  url_name <- lift (index (re_findall re_place_name url) 0) ;;
  let url_name := unquote_plus E url_name in
  log (LogScraping url_name) ;;
  feature_id <- lift (_parse_url_to_feature_id url) ;;
  let sort_by_id := _parse_sort_by sort_by in
  let n_requests := n_requests_of n_reviews in
  r <- for_loop feature_id hl0 (str_of_int sort_by_id)
                (seq 0 (Z.to_nat n_requests)) None
                {| reviews_soup := None; review_count := None; token := tok;
                   j := 0%nat; results := [] |} ;;
  i <- lift (bound (fst r)) ;;
  log (LogDone (i + 1) (j (snd r))) ;;
  ret (results (snd r)).

End Scraper.

(** ** A concrete endpoint

    One page of the review dialog as the endpoint wraps it, the trees the
    two parsers build from it, and an environment that serves a scripted
    sequence of responses. *)

Definition el (name : string) (attrs : list (string * string))
    (children : list node) : node := Tag name attrs children.

Definition div (children : list node) : node := Tag "div" [] children.

(** The document skeleton down to the list of reviews; the fourth inner
    block carries the review count and the next-page token. *)
Definition page_body (count tok : string) (reviews : list node) : node :=
  el "body" []
    [ el "div" [("class", "root")]
        [ div [ div [];
                div [ div []; div []; div [];
                      el "div" [("data-google-review-count", count);
                                ("data-next-page-token", tok)]
                        [ div [ div []; div reviews ] ] ] ] ] ].

Definition page_tree (count tok : string) (reviews : list node) : node :=
  el "html" [] [page_body count tok reviews].

Definition page_soup (count tok : string) (reviews : list node) : node :=
  el "[document]" [] [page_tree count tok reviews].

Definition page_html (count tok reviews_html : string) : string :=
  "<div class='root'><div><div></div><div><div></div><div></div><div></div>"
  +:+ "<div data-google-review-count='" +:+ count
  +:+ "' data-next-page-token='" +:+ tok +:+ "'><div><div></div><div>"
  +:+ reviews_html +:+ "</div></div></div></div></div></div>".

(** What the endpoint sends: the fragment inside transport noise. *)
Definition page_response (count tok reviews_html : string) : string :=
  ")]}'<style>.x{}</style>" +:+ page_html count tok reviews_html +:+ "<script></script>".

Definition shell (fragment : string) : string :=
  "<html><body>" +:+ fragment +:+ "</body></html>".

(** A review without any of the marked elements. *)
Definition bare_review : node := el "div" [("class", "rev"); ("id", "r1")] [].
Definition bare_review_html : string := "<div class='rev' id='r1'></div>".

(** An environment that answers the [k]-th request with the [k]-th
    entry of [script] (a timeout once the script is over) and parses the
    documents listed in [known]. *)
Definition scripted_env (script : list (result string))
    (known : list (string * (node * node))) : Env :=
  {| requests_get := fun k _ => default (Raise (OtherException "Timeout")) (nth_error script k);
     soup_parse := fun text =>
       default (el "[document]" [] [])
               (snd <$> List.find (fun kv => String.eqb text (fst kv))
                                  (map (fun kv => (fst kv, fst (snd kv))) known));
     lxml_parse := fun text =>
       match List.find (fun kv => String.eqb text (fst kv)) known with
       | Some kv => Ok (snd (snd kv))
       | None => Raise (OtherException "ParserError")
       end;
     format_exc := fun e =>
       match e with
       | AttributeError => "AttributeError"
       | TypeError => "TypeError"
       | IndexError => "IndexError"
       | KeyError => "KeyError"
       | ValueError => "ValueError"
       | UnboundLocalError => "UnboundLocalError"
       | OtherException name => name
       end;
     now_str := fun k => "2024-01-01 00:00:0" +:+ str_of_int (Z.of_nat k);
     now_stamp := fun k => "2024-01-01_00-00-0" +:+ str_of_int (Z.of_nat k);
     unquote_plus := fun s => s;
     sort_by_enum := [("newest", 1); ("most_relevant", 2)] |}.

Definition default_scraper : scraper :=
  {| hl := "pt-br"; request_interval := 2 # 10; n_retries := 3; retry_time := 3 # 1 |}.

Definition world0 : world :=
  {| heap := {[ errors_loc := [] ]}; clock := 0; n_http := 0; trace := [] |}.

Definition place_url : string :=
  "https://www.google.com/maps/place/Cafe/@-23.5,-46.6,17z/data=!4m7!3m6!1s0x94ce59:0x5c1a2b!8m2".

Definition page1_known : list (string * (node * node)) :=
  [ (shell (page_html "25" "t1" bare_review_html),
     (page_soup "25" "t1" [bare_review], page_tree "25" "t1" [bare_review])) ].

(** A review in which every marked element is present. *)
Definition full_review : node :=
  el "div" [("class", "rev"); ("id", "r2")]
    [ el "a" [("class", "TSUbDb")] [NavigableString "Ana"];
      el "span" [("class", "Fam1ne EBe2gf");
                 ("aria-label", "Classificado como 4,0 de 5,0.")] [];
      el "span" [("class", "dehysf lTi8oc")] [NavigableString "2 meses"];
      el "span" [("class", "review-full-text")] [NavigableString "Muito bom"];
      el "a" [("class", "RvU3D");
              ("href", "https://www.google.com/maps/reviews?postId=abc123&hl=pt")] [] ].

(** A review whose rating label is the Spanish one. *)
Definition spanish_review : node :=
  el "div" [("class", "rev"); ("id", "r3")]
    [ el "span" [("class", "Fam1ne EBe2gf");
                 ("aria-label", "4,0 de un máximo de 5 estrellas")] [] ].

(** A text block that is a blank text node followed by a classed
    element, and one whose text has two spaces in a row. *)
Definition text_with_footer : node :=
  el "span" [("data-expandable-section", EmptyString)]
    [ NavigableString " ";
      el "div" [("class", "k8MTF")] [NavigableString "Rooms: 5"] ].

Definition text_with_gap : node :=
  el "span" [("data-expandable-section", EmptyString)]
    [ NavigableString "good  food" ].

(** An endpoint that serves the first page and then times out, and one
    that always times out. *)
Definition one_page_env : Env :=
  scripted_env [Ok (page_response "25" "t1" bare_review_html)] page1_known.

Definition down_env : Env := scripted_env [] [].

Definition run (E : Env) (n_reviews : Z) : result (list pydict) * world :=
  scrape_reviews E default_scraper place_url n_reviews EmptyString "newest"
                 EmptyString world0.

(** The locals when the page loop starts, and after the tuple assignment
    of line 350. *)
Definition initial (tok : string) : locals :=
  {| reviews_soup := None; review_count := None; token := tok;
     j := 0%nat; results := [] |}.

Definition assigned (v : locals) (rs : list (option node)) (rc : Z)
    (tok : string) : locals :=
  {| reviews_soup := Some rs; review_count := Some rc; token := tok;
     j := j v; results := results v |}.

(** The world once line 346 has logged the start of page [i]. *)
Definition started (i : nat) (v : locals) (w : world) : world :=
  snd (log (LogRequest i (j v)) w).

(** The fetch of the first page from [one_page_env]. *)
Definition first_fetch : result (option (node * list (option node) * Z * string)) * world :=
  fetch_retrying one_page_env default_scraper 3 0 "0x94ce59:0x5c1a2b"
                 EmptyString "1" EmptyString (started 0 (initial EmptyString) world0).

(** ** Notions used in the statements *)

(** [p] occurs in [s] at offset [i]. *)
Fixpoint occurs_atb (p s : string) (i : nat) : bool :=
  match i with
  | O => String.prefix p s
  | S i' =>
      match s with
      | String _ s' => occurs_atb p s' i'
      | EmptyString => false
      end
  end.

(** No occurrence of [p] at the [n] offsets from [i] on. *)
Definition absent_in (p s : string) (i n : nat) : bool :=
  forallb (fun k => negb (occurs_atb p s k)) (seq i n).

(** The first, and the last, occurrence of [p] in [s] is at offset [i]. *)
Definition first_atb (p s : string) (i : nat) : bool :=
  occurs_atb p s i && absent_in p s 0 i.

Definition last_atb (p s : string) (i : nat) : bool :=
  occurs_atb p s i && absent_in p s (S i) (String.length s - i).

(** The claim's reading of [_cut_response]: the span from the first
    opening tag [<div] to the end of the last closing tag, in the shell;
    a failure ([None]) when there is no [<div]. *)
Definition claimed_cut_response (text : string) : option string :=
  if str_find "<div" text <? 0 then None
  else match re_search_reverse "</div>" text with
       | Some m => Some (shell (py_slice (str_find "<div" text) (snd m) text))
       | None => None
       end.

Definition cut_meets_claim (text : string) : Prop :=
  match claimed_cut_response text with
  | Some document => _cut_response text = Ok document
  | None => exists e, _cut_response text = Raise e
  end.

(** The claim's reading of [_parse_review_text]: the direct text
    fragments before the first child element with a class, whitespace
    runs collapsed, quotes removed. *)
Fixpoint direct_text (children : list node) : string :=
  match children with
  | [] => EmptyString
  | c :: rest =>
      if is_tag c && has_attr "class" c then EmptyString
      else match c with
           | NavigableString s => s +:+ direct_text rest
           | _ => direct_text rest
           end
  end.

Definition claimed_review_text (text_block : node) : string :=
  re_sub re_quote EmptyString
         (re_sub re_spaces " " (direct_text (contents text_block))).


(** The error description [_handle_review_exception] appends. *)
Definition describe (E : Env) (name : string) (e : exn) : string :=
  re_sub re_quote_class " "
    ("review " +:+ name +:+ ":" +:+ re_sub re_space " " (format_exc E e)).

(** The ten [try] blocks of [_parse_review], in order. *)
Definition bodies (review : option node) : list (string * W unit) :=
  [ ("text", text_body review);
    ("rating", rating_body review);
    ("other_ratings", other_ratings_body review);
    ("relative_date", relative_date_body review);
    ("user_name", user_name_body review);
    ("user_data", user_data_body review);
    ("review_id", review_id_body review);
    ("likes", likes_body review);
    ("response", response_body review);
    ("trip_type_travel_group", trip_body review) ].

(** The blocks that raised, with the exception of each. *)
Definition failures (review : option node) : list (string * exn) :=
  omap (fun nb => match snd (snd nb) with
                  | Raise e => Some (fst nb, e)
                  | Ok _ => None
                  end) (bodies review).

(** All assignments the blocks made before ending. *)
Definition assignments (review : option node) : list (string * value) :=
  flat_map (fun nb => fst (snd nb)) (bodies review).

(** The record [_parse_review] builds, read off the blocks. *)
Definition parsed_record (review : option node) (retrieval_date : string) : pydict :=
  dict_set "retrieval_date" (VStr retrieval_date)
           (apply_assigns (assignments review) review_default_result).

(** [r] is the record of [review], stamped with [tok]. *)
Definition stamped (tok : string) (review : option node) (r : pydict) : Prop :=
  exists ts, r = dict_set "token" (VStr tok) (parsed_record review ts).

(** The descriptions that parsing [reviews] in turn appends. *)
Definition error_msgs (E : Env) (reviews : list (option node)) : list string :=
  flat_map (fun review => map (fun ne => describe E (fst ne) (snd ne))
                              (failures review)) reviews.

Definition block_msgs (E : Env) (nb : string * W unit) : list string :=
  match snd (snd nb) with
  | Raise e => [describe E (fst nb) e]
  | Ok _ => []
  end.

(** The blocks run one after the other: the body of [_parse_review] up
    to the time stamp, as a recursion over [bodies]. *)
Fixpoint run_blocks (E : Env) (review : option node)
    (bs : list (string * W unit)) (result : pydict) : M pydict :=
  match bs with
  | [] => ret result
  | nb :: bs' =>
      bind (try_block E review (fst nb) (snd nb) result)
           (run_blocks E review bs')
  end.

(** The keys the blocks assign; [errors], [token] and [retrieval_date]
    are not among them. *)
Definition block_keys : list string :=
  [ "text"; "rating"; "rating_max"; "other_ratings"; "relative_date";
    "user_name"; "user_url"; "user_is_local_guide"; "user_reviews";
    "user_photos"; "review_id"; "likes"; "response_text";
    "response_relative_date"; "trip_type_travel_group" ].

(** [m] assigns only keys of [K]. *)
Definition writes {A} (K : list string) (m : W A) : Prop :=
  forall kv, In kv (fst m) -> In (fst kv) K.

(** The rows written, oldest first. *)
Definition rows_of (tr : list event) : list pydict :=
  omap (fun e => match e with EvRow d _ => Some d | _ => None end) tr.

(** A row, if [e] is one, carries the token [tok]. *)
Definition row_token_is (tok : string) (e : event) : Prop :=
  match e with
  | EvRow d _ => dict_get "token" d = Some (VStr tok)
  | _ => True
  end.

(** The claim's reading of the stamp: each row carries the token that
    was sent in the latest request before it. *)
Fixpoint rows_carry_sent_token (sent : option string) (tr : list event) : bool :=
  match tr with
  | [] => true
  | EvRequest tok _ :: tr' => rows_carry_sent_token (Some tok) tr'
  | EvRow d _ :: tr' =>
      match sent, dict_get "token" d with
      | Some tok, Some (VStr t) => String.eqb tok t
      | _, _ => false
      end && rows_carry_sent_token sent tr'
  | _ :: tr' => rows_carry_sent_token sent tr'
  end.

Definition is_page_start (e : event) : bool :=
  match e with EvLog (LogRequest _ _) => true | _ => false end.

Definition is_limit (e : event) : bool :=
  match e with EvLog (LogReviewLimit _) => true | _ => false end.

Definition is_failed_request (e : event) : bool :=
  match e with EvLog (LogRequestError _ _) => true | _ => false end.

(** Page iterations begun in a trace: line 346 logs each one once. *)
Definition pages (tr : list event) : nat :=
  List.length (List.filter is_page_start tr).

(** A termination condition fired: line 381 logs it before [break]. *)
Definition limit_reached (tr : list event) : bool := existsb is_limit tr.

(** The claim's reading of the page count. *)
Definition claimed_page_count (n_reviews : Z) (tr : list event) : Prop :=
  pages tr = Z.to_nat (n_requests_of n_reviews) \/ limit_reached tr = true.

(** What happened from the start of page [i] on. *)
Fixpoint from_page (i : nat) (tr : list event) : list event :=
  match tr with
  | [] => []
  | EvLog (LogRequest k _) :: tr' => if (k =? i)%nat then tr' else from_page i tr'
  | _ :: tr' => from_page i tr'
  end.

(** Events other than rows, page starts and the limit message. *)
Definition quiet (e : event) : Prop :=
  match e with
  | EvRow _ _ | EvLog (LogRequest _ _) | EvLog (LogReviewLimit _) => False
  | _ => True
  end.

Definition silent (e : event) : Prop :=
  is_page_start e = false /\ is_limit e = false.

(** [m] only adds events of class [Q] to the trace. *)
Definition emits {A} (Q : event -> Prop) (m : M A) : Prop :=
  forall w r w', m w = (r, w') ->
    exists evs, trace w' = trace w ++ evs /\ Forall Q evs.

Definition returned {A} (x : result A * world) : option A :=
  match fst x with
  | Ok a => Some a
  | Raise _ => None
  end.

(** ** Notions used in the further statements *)

(** [m] leaves the component [f] of the world as it was. *)
Definition keeps {A X} (f : world -> X) (m : M A) : Prop :=
  forall w r w', m w = (r, w') -> f w' = f w.

Definition is_request (e : event) : bool :=
  match e with EvRequest _ _ => true | _ => false end.

Definition is_sleep (e : event) : bool :=
  match e with EvSleep _ => true | _ => false end.

(** What the retry loop of page [i] may add to the trace: a request
    sent with [tok], the two messages of a failed attempt, and the wait
    of [d] seconds. *)
Definition retry_event (i : nat) (tok : string) (d : Q) (e : event) : Prop :=
  match e with
  | EvRequest t _ => t = tok
  | EvLog (LogRequestError k _) => k = i
  | EvLog LogWaiting => True
  | EvSleep s => s = d
  | _ => False
  end.

Definition is_quote (c : ascii) : bool := is_char squote c || is_char dquote c.

(** Each character of class [p] replaced by [repl]. *)
Fixpoint replace_class (p : ascii -> bool) (repl s : string) : string :=
  match s with
  | EmptyString => EmptyString
  | String c s' =>
      (if p c then repl else String c EmptyString) +:+ replace_class p repl s'
  end.

(** The text read backwards. *)
Definition srev (s : string) : string := text_of (rev (chars s)).


(** The texts a pattern can match, read off its syntax; a lookaround
    matches the empty text. *)
Fixpoint lang (r : regex) (m : list ascii) : Prop :=
  match r with
  | Lit l => m = chars l
  | Cls p => exists c, m = [c] /\ p c = true
  | Cat r1 r2 => exists m1 m2, m = m1 ++ m2 /\ lang r1 m1 /\ lang r2 m2
  | Alt r1 r2 => lang r1 m \/ lang r2 m
  | Many p => forallb p m = true
  | Many1 p => m <> [] /\ forallb p m = true
  | Few p => forallb p m = true
  | Ahead _ => m = []
  | Behind _ => m = []
  end.


(** A decimal number as the rating pattern finds it: digits, a point,
    and possibly more digits. *)
Definition is_decimal (s : string) : Prop :=
  exists whole fraction,
    s = whole +:+ "." +:+ fraction
    /\ whole <> EmptyString
    /\ forallb is_digit (chars whole) = true
    /\ forallb is_digit (chars fraction) = true.

(** [t] occurs in [s]. *)
Definition occurs_in (t s : string) : Prop :=
  exists before after, s = before +:+ t +:+ after.

(** The failures a block can end in when the review node is there. *)
Definition possible_failure (ne : string * exn) : Prop :=
  (fst ne = "rating"
   /\ (snd ne = AttributeError \/ snd ne = TypeError \/ snd ne = IndexError))
  \/ (fst ne = "relative_date" /\ snd ne = AttributeError)
  \/ (fst ne = "user_name" /\ snd ne = AttributeError)
  \/ (fst ne = "review_id"
      /\ (snd ne = AttributeError \/ snd ne = TypeError \/ snd ne = IndexError))
  \/ (fst ne = "likes" /\ snd ne = ValueError).

(** ** scraper.py: the place metadata *)

(** Modelled from the spec: [metadata_default] of src/config.py, which
    is not among the sources.  The spec's PlaceMetadata gives the fields;
    every one of them starts as missing. *)
Definition metadata_default : pydict :=
  [ ("feature_id", VNone); ("url", VNone); ("place_name", VNone);
    ("address", VNone); ("overall_rating", VNone); ("n_reviews", VNone);
    ("topics", VNone); ("retrieval_date", VNone) ].

(** [[.]|,| reviews| comentários] *)
Definition re_count_noise : regex :=
  Alt (Cls (is_char "."))
      (Alt (Lit ",") (Alt (Lit " reviews") (Lit " comentários"))).

(** [n.find(name)]: the first element called [name] below [n]. *)
Definition find_name (name : string) (n : node) : option node :=
  find (fun d => String.eqb (tag_name d) name) n.

(** The bodies of the five [try] blocks of [_parse_place]. *)

(** line 123 *)
Definition place_name_body (response : node) : W unit :=
  n <~ w_lift (deref (find_class "P5Bobd" response)) ;;
  assign "place_name" (VStr (get_text n)).

(** line 130 *)
Definition address_body (response : node) : W unit :=
  n <~ w_lift (deref (find_class "T6pBCe" response)) ;;
  assign "address" (VStr (get_text n)).

(** lines 137-138 *)
Definition overall_rating_body (response : node) : W unit :=
  n <~ w_lift (deref (find_class "Aq14fc" response)) ;;
  x <~ w_lift (overall_rating_of (get_text n)) ;;
  assign "overall_rating" (VFloat x).

(** lines 145-147 *)
Definition n_reviews_body (response : node) : W unit :=
  n <~ w_lift (deref (find_class "z5jxId" response)) ;;
  let n_reviews_text := re_sub re_count_noise EmptyString (get_text n) in
  z <~ w_lift (py_int n_reviews_text) ;;
  assign "n_reviews" (VInt z).

(** lines 154-156 *)
Definition topics_body (response : node) : W unit :=
  topics <~ w_lift (deref (find_name "localreviews-place-topics" response)) ;;
  assign "topics" (VStr (joined_strings topics)).

(** The messages only the place functions log. *)
Inductive place_log : Type :=
  | LogParsingMetadata                (* line 406 *)
  | LogPlaceError (field : string)    (* logger.error("error parsing place: ...") *)
  | LogPlaceException (e : exn).      (* logger.exception(e) *)

(** The world of the place functions: the world, and beside it the
    messages of [place_log], each with the length the trace had when it
    was logged. *)
Definition place_world : Type := world * list (nat * place_log).

Definition MP (A : Type) : Type := place_world -> result A * place_world.

Definition p_ret {A} (a : A) : MP A := fun pw => (Ok a, pw).

Definition p_bind {A B} (m : MP A) (f : A -> MP B) : MP B :=
  fun pw => match m pw with
            | (Ok a, pw') => f a pw'
            | (Raise e, pw') => (Raise e, pw')
            end.

Notation "x <-- m ;; k" := (p_bind m (fun x => k))
  (at level 100, m at next level, right associativity).
Notation "m ;;- k" := (p_bind m (fun _ => k))
  (at level 100, right associativity).

(** A computation of the review functions, run on the world. *)
Definition shared {A} (m : M A) : MP A :=
  fun pw => (fst (m (fst pw)), (snd (m (fst pw)), snd pw)).

Definition place_logged (r : place_log) : MP unit :=
  fun pw => (Ok tt, (fst pw, snd pw ++ [(List.length (trace (fst pw)), r)])).

(** One [try: body  except Exception as e: logger.error(...);
    logger.exception(e)] of [_parse_place]. *)
Definition try_place_block (field : string) (body : W unit) (metadata : pydict)
    : MP pydict :=
  let metadata := apply_assigns (fst body) metadata in
  match snd body with
  | Ok _ => p_ret metadata
  | Raise e =>
      place_logged (LogPlaceError field) ;;-
      place_logged (LogPlaceException e) ;;-
      p_ret metadata
  end.

Section Place.
Context (E : Env) (self : scraper).

(** [_parse_place] (lines 115-163) *)
Definition _parse_place (response : node) : MP pydict :=
  let metadata := dict_copy metadata_default in
  metadata <-- try_place_block "place_name" (place_name_body response) metadata ;;
  metadata <-- try_place_block "address" (address_body response) metadata ;;
  metadata <-- try_place_block "overall_rating" (overall_rating_body response) metadata ;;
  metadata <-- try_place_block "n_reviews" (n_reviews_body response) metadata ;;
  metadata <-- try_place_block "topics" (topics_body response) metadata ;;
  k <-- shared tick ;;
  p_ret (dict_set "retrieval_date" (VStr (now_str E k)) metadata).

(** [scrape_place] (lines 393-418); the writer and the file are the row
    and flush events of the trace. *)
Definition scrape_place (url hl0 : string) : MP pydict :=
  url_name <-- shared (lift (index (re_findall re_place_name url) 0)) ;;
  let url_name := unquote_plus E url_name in
  shared (log (LogScraping url_name)) ;;-
  feature_id <-- shared (lift (_parse_url_to_feature_id url)) ;;
  place_logged LogParsingMetadata ;;-
  p <-- shared (_get_api_response E self feature_id EmptyString hl0 EmptyString
                                  EmptyString EmptyString) ;;
  let response_soup := fst (fst (fst p)) in
  metadata <-- _parse_place response_soup ;;
  let metadata := dict_set "feature_id" (VStr feature_id) metadata in
  let metadata := dict_set "url" (VStr url) metadata in
  shared (write_row metadata) ;;-
  shared (emit EvFlush) ;;-
  p_ret metadata.

End Place.

(** The five [try] blocks of [_parse_place], in order; the fields whose
    blocks raised; the record [_parse_place] builds. *)
Definition place_bodies (response : node) : list (string * W unit) :=
  [ ("place_name", place_name_body response);
    ("address", address_body response);
    ("overall_rating", overall_rating_body response);
    ("n_reviews", n_reviews_body response);
    ("topics", topics_body response) ].

Definition place_failures (response : node) : list (string * exn) :=
  omap (fun nb => match snd (snd nb) with
                  | Raise e => Some (fst nb, e)
                  | Ok _ => None
                  end) (place_bodies response).

Definition place_record (response : node) (retrieval_date : string) : pydict :=
  dict_set "retrieval_date" (VStr retrieval_date)
    (apply_assigns (flat_map (fun nb => fst (snd nb)) (place_bodies response))
                   metadata_default).

(** The two messages logged for each block that raised. *)
Definition place_messages (response : node) : list place_log :=
  flat_map (fun ne => [LogPlaceError (fst ne); LogPlaceException (snd ne)])
           (place_failures response).

(** A place page with name, address, rating and review count. *)
Definition place_page : node :=
  el "[document]" []
    [ el "html" []
        [ el "body" []
            [ el "div" [("class", "P5Bobd")] [NavigableString "Cafe Central"];
              el "div" [("class", "T6pBCe")] [NavigableString "Rua A, 10"];
              el "span" [("class", "Aq14fc")] [NavigableString "4,5"];
              el "span" [("class", "z5jxId")] [NavigableString "1.234 comentários"];
              el "div" [("data-google-review-count", "25");
                        ("data-next-page-token", "t1")] [] ] ] ].

Definition place_html : string :=
  "<div class='P5Bobd'>Cafe Central</div><div class='T6pBCe'>Rua A, 10</div>"
  +:+ "<span class='Aq14fc'>4,5</span><span class='z5jxId'>1.234 comentários</span>"
  +:+ "<div data-google-review-count='25' data-next-page-token='t1'></div>".

Definition place_env : Env :=
  scripted_env [Ok place_html]
    [ (shell place_html, (place_page, el "html" [] (contents place_page))) ].

(** A block of [_parse_place] assigns its field as its last step. *)
Definition one_assignment (field : string) (body : W unit) : Prop :=
  match snd body with
  | Ok _ => exists v, fst body = [(field, v)]
  | Raise _ => fst body = []
  end.

(** * Proofs *)

(** ** Searching and slicing *)

Lemma absent_in_cons p c s i n :
  absent_in p (String c s) (S i) n = absent_in p s i n.
Proof.
  unfold absent_in. revert i. induction n as [|n IH]; intros i; simpl; [done|].
  by rewrite IH.
Qed.

Lemma find_from_first p s : forall a i,
  first_atb p s a = true -> find_from p s i = i + Z.of_nat a.
Proof.
  induction s as [|c s IH]; intros a i H; unfold first_atb in H;
    apply andb_true_iff in H as [Ho Ha].
  - destruct a as [|a]; cbn [occurs_atb] in Ho; [|done].
    cbn [find_from]. rewrite Ho. lia.
  - destruct a as [|a].
    + cbn [occurs_atb] in Ho. cbn [find_from]. rewrite Ho. lia.
    + unfold absent_in in Ha. cbn [seq forallb] in Ha.
      apply andb_true_iff in Ha as [H0 Ha].
      cbn [occurs_atb] in H0. apply negb_true_iff in H0.
      cbn [find_from]. rewrite H0.
      fold (absent_in p (String c s) 1 a) in Ha. rewrite absent_in_cons in Ha.
      rewrite (IH a (i + 1)); [lia|].
      unfold first_atb. cbn [occurs_atb] in Ho. by rewrite Ho, Ha.
Qed.

Lemma occurs_atb_bound p s : forall i,
  occurs_atb p s i = true -> (i + String.length p <= String.length s)%nat.
Proof.
  induction s as [|c s IH]; intros [|i] H; cbn [occurs_atb] in H.
  - destruct p; [simpl; lia | done].
  - done.
  - clear IH. revert c s H. induction p as [|a p IHp]; intros c s H; [simpl; lia|].
    simpl in H. destruct (ascii_dec a c); [|done].
    destruct s as [|c' s]; [destruct p; [simpl; lia|done]|].
    specialize (IHp c' s H). simpl in *. lia.
  - specialize (IH i H). simpl. lia.
Qed.

Lemma rsearch_from_absent p s : forall i,
  absent_in p s 0 (S (String.length s)) = true -> rsearch_from p s i = None.
Proof.
  induction s as [|c s IH]; intros i H; unfold absent_in in H;
    cbn [String.length seq forallb] in H; apply andb_true_iff in H as [H0 H].
  - cbn [occurs_atb] in H0. apply negb_true_iff in H0.
    cbn [rsearch_from]. by rewrite H0.
  - cbn [occurs_atb] in H0. apply negb_true_iff in H0.
    cbn [rsearch_from]. rewrite H0, IH; [done|].
    rewrite <- (absent_in_cons p c s 0). exact H.
Qed.

Lemma rsearch_from_last p s : forall b i,
  last_atb p s b = true ->
  rsearch_from p s i = Some (i + Z.of_nat b, i + Z.of_nat b + len p).
Proof.
  induction s as [|c s IH]; intros b i H; unfold last_atb in H;
    apply andb_true_iff in H as [Ho Ha].
  - destruct b as [|b]; cbn [occurs_atb] in Ho; [|done].
    cbn [rsearch_from]. rewrite Ho. do 2 f_equal; lia.
  - destruct b as [|b]; cbn [occurs_atb] in Ho.
    + cbn [rsearch_from]. rewrite rsearch_from_absent.
      * rewrite Ho. do 2 f_equal; lia.
      * cbn [String.length] in Ha. rewrite Nat.sub_0_r in Ha.
        by rewrite absent_in_cons in Ha.
    + cbn [rsearch_from]. rewrite (IH b (i + 1)).
      * do 2 f_equal; lia.
      * unfold last_atb. rewrite Ho. cbn [String.length Nat.sub] in Ha.
        by rewrite absent_in_cons in Ha.
Qed.

Lemma substring_all_slice (s : string) (a e : nat) :
  (a < e)%nat -> (e <= String.length s)%nat ->
  py_slice (Z.of_nat a) (Z.of_nat e) s = substring a (e - a) s.
Proof.
  intros Hae He. unfold py_slice, slice_index, len.
  destruct (Z.ltb_spec (Z.of_nat a) 0); [lia|].
  destruct (Z.ltb_spec (Z.of_nat e) 0); [lia|].
  rewrite !Z.min_l by lia.
  destruct (Z.ltb_spec (Z.of_nat a) (Z.of_nat e)); [|lia].
  f_equal; lia.
Qed.

(** C6 (as amended). A text without any closing tag makes
    [_cut_response] raise; a text whose first [<div ] (with the space) is
    at offset [a] and whose last closing tag starts at offset [b], not
    before [a], is cut to the span from [a] to the end of that closing
    tag and put in the document shell. *)
Theorem cut_response_span (text : string) :
  (absent_in "</div>" text 0 (S (String.length text)) = true ->
   _cut_response text = Raise AttributeError)
  /\ (forall a b : nat,
        first_atb "<div " text a = true ->
        last_atb "</div>" text b = true ->
        (a <= b)%nat ->
        _cut_response text
        = Ok ("<html><body>" +:+ substring a (b + 6 - a) text +:+ "</body></html>")).
Proof.
  split.
  - intros H. unfold _cut_response, re_search_reverse.
    by rewrite rsearch_from_absent.
  - intros a b Ha Hb Hab. unfold _cut_response, re_search_reverse, str_find.
    rewrite (rsearch_from_last _ _ b) by done.
    rewrite (find_from_first _ _ a) by done.
    cbn [deref rbind snd].
    replace (0 + Z.of_nat a) with (Z.of_nat a) by lia.
    replace (0 + Z.of_nat b + len "</div>") with (Z.of_nat (b + 6)) by (unfold len; simpl; lia).
    rewrite substring_all_slice; [done|lia|].
    unfold last_atb in Hb. apply andb_true_iff in Hb as [Hb _].
    apply occurs_atb_bound in Hb. simpl in Hb. lia.
Qed.

(** ** The decimal separator *)






Example both_separators_give_4_5 :
  overall_rating_of "4,5" = Ok (9 # 2) /\ overall_rating_of "4.5" = Ok (9 # 2)
  /\ rating_of_label (Some "4,5 de 5,0")
     = ([("rating", VFloat (9 # 2)); ("rating_max", VFloat (5 # 1))], Ok tt).
Proof. repeat split; vm_compute; reflexivity. Qed.


(** ** Traces *)

Section Emits.
Context {A B : Type} (Q : event -> Prop).

Lemma emits_ret (a : A) : emits Q (ret a).
Proof. intros w r w' [= <- <-]. exists []. by rewrite app_nil_r. Qed.

Lemma emits_lift (x : result A) : emits Q (lift x).
Proof. intros w r w' [= <- <-]. exists []. by rewrite app_nil_r. Qed.

Lemma emits_bind (m : M A) (f : A -> M B) :
  emits Q m -> (forall a, emits Q (f a)) -> emits Q (bind m f).
Proof.
  intros Hm Hf w r w' H. unfold bind in H.
  destruct (m w) as [[a|e] w1] eqn:Em.
  - destruct (Hm _ _ _ Em) as (ev1 & T1 & F1).
    destruct (Hf a _ _ _ H) as (ev2 & T2 & F2).
    exists (ev1 ++ ev2). rewrite T2, T1, <- app_assoc. split; [done|].
    by apply Forall_app.
  - injection H as <- <-. exact (Hm _ _ _ Em).
Qed.

Lemma emits_try_except (m : M A) (h : exn -> M A) :
  emits Q m -> (forall e, emits Q (h e)) -> emits Q (try_except m h).
Proof.
  intros Hm Hh w r w' H. unfold try_except in H.
  destruct (m w) as [[a|e] w1] eqn:Em.
  - injection H as <- <-. exact (Hm _ _ _ Em).
  - destruct (Hm _ _ _ Em) as (ev1 & T1 & F1).
    destruct (Hh e _ _ _ H) as (ev2 & T2 & F2).
    exists (ev1 ++ ev2). rewrite T2, T1, <- app_assoc. split; [done|].
    by apply Forall_app.
Qed.

Lemma emits_mono (Q' : event -> Prop) (m : M A) :
  (forall e, Q' e -> Q e) -> emits Q' m -> emits Q m.
Proof.
  intros HQ Hm w r w' H. destruct (Hm _ _ _ H) as (evs & T & F).
  exists evs. split; [done|]. eapply Forall_impl; eauto.
Qed.
End Emits.

Lemma emits_emit Q (e : event) : Q e -> emits Q (emit e).
Proof. intros He w r w' [= <- <-]. exists [e]. by repeat constructor. Qed.

Lemma emits_tick Q : emits Q tick.
Proof. intros w r w' [= <- <-]. exists []. by rewrite app_nil_r. Qed.

Lemma emits_list_append Q v x : emits Q (list_append v x).
Proof.
  intros w r w' H. exists []. rewrite app_nil_r. split; [|done].
  unfold list_append in H. destruct v; try (by injection H as <- <-).
  destruct (heap w !! l); by injection H as <- <-.
Qed.

Create HintDb emits.
#[local] Hint Resolve emits_ret emits_lift emits_tick emits_list_append : emits.

Ltac emits_step :=
  first [ apply emits_bind; [|intros ?]
        | apply emits_try_except; [|intros ?]
        | apply emits_emit; done
        | solve [auto with emits] ].

Lemma _handle_review_exception_quiet E result review name e :
  emits quiet (_handle_review_exception E result review name e).
Proof. unfold _handle_review_exception, log. repeat emits_step. Qed.

Lemma try_block_quiet E review name body result :
  emits quiet (try_block E review name body result).
Proof.
  unfold try_block. destruct (snd body); [emits_step|].
  apply _handle_review_exception_quiet.
Qed.

Lemma _parse_review_quiet E review : emits quiet (_parse_review E review).
Proof.
  unfold _parse_review.
  repeat (apply emits_bind; [apply try_block_quiet|intros ?]).
  repeat emits_step.
Qed.

(** *** Dictionaries *)

Lemma dict_get_set_eq k v d : dict_get k (dict_set k v d) = Some v.
Proof.
  induction d as [|[k' v'] d IH]; simpl.
  - by rewrite String.eqb_refl.
  - destruct (String.eqb k k') eqn:Ek; simpl; rewrite ?Ek, ?String.eqb_refl; done.
Qed.

Lemma dict_get_set_ne k k' v d :
  k <> k' -> dict_get k (dict_set k' v d) = dict_get k d.
Proof.
  intros Hne. induction d as [|[k0 v0] d IH]; simpl.
  - apply String.eqb_neq in Hne. by rewrite Hne.
  - destruct (String.eqb k' k0) eqn:E0; simpl.
    + apply String.eqb_eq in E0 as <-.
      apply String.eqb_neq in Hne. by rewrite Hne.
    + by rewrite IH.
Qed.

Lemma dict_get_apply_assigns k l : forall d,
  ~ In k (map fst l) -> dict_get k (apply_assigns l d) = dict_get k d.
Proof.
  induction l as [|[k' v'] l IH]; intros d Hk; [done|].
  simpl in Hk. unfold apply_assigns in *. simpl.
  rewrite IH by tauto. apply dict_get_set_ne. intros ->. tauto.
Qed.

Lemma apply_assigns_app l1 l2 d :
  apply_assigns (l1 ++ l2) d = apply_assigns l2 (apply_assigns l1 d).
Proof. apply fold_left_app. Qed.

(** *** Which keys a block assigns *)

Lemma writes_ret {A} K (a : A) : writes K (w_ret a).
Proof. intros kv []. Qed.

Lemma writes_lift {A} K (r : result A) : writes K (w_lift r).
Proof. intros kv []. Qed.

Lemma writes_assign K k v : In k K -> writes K (assign k v).
Proof. intros Hk kv [<-|[]]. done. Qed.

Lemma writes_bind {A B} K (m : W A) (f : A -> W B) :
  writes K m -> (forall a, writes K (f a)) -> writes K (w_bind m f).
Proof.
  intros Hm Hf kv. unfold w_bind. destruct m as [l [a|e]]; simpl.
  - rewrite in_app_iff. intros [H|H]; [by apply Hm | by apply (Hf a)].
  - apply Hm.
Qed.

Ltac writes_tac :=
  cbv zeta;
  repeat first
    [ apply writes_ret
    | apply writes_lift
    | apply writes_assign; simpl; tauto
    | apply writes_bind; [|intros ?]
    | match goal with
      | |- writes _ (match ?x with _ => _ end) => destruct x
      end ].

Lemma bodies_write review :
  Forall (fun nb => writes block_keys (snd nb)) (bodies review).
Proof.
  unfold bodies, block_keys.
  repeat first [apply Forall_nil_2 | apply Forall_cons_2]; cbn [snd];
    unfold text_body, rating_body, rating_of_label, other_ratings_body,
      relative_date_body, user_name_body, user_data_body, review_id_body,
      likes_body, response_body, trip_body;
    writes_tac.
Qed.

(** *** The exception handler and the blocks on the heap *)

Lemma _handle_review_exception_spec E result review name e w errs :
  heap w !! errors_loc = Some errs ->
  dict_get "errors" result = Some (VList errors_loc) ->
  exists w',
    _handle_review_exception E result review name e w = (Ok result, w')
    /\ heap w' = <[errors_loc := errs ++ [describe E name e]]> (heap w)
    /\ clock w' = S (clock w)
    /\ n_http w' = n_http w.
Proof.
  intros Hh Hd.
  unfold _handle_review_exception, bind, log, emit, lift, dict_item, tick,
    list_append, ret.
  rewrite Hd. cbn [heap trace clock n_http]. rewrite Hh.
  cbn [heap trace clock n_http]. eexists. split; [reflexivity|]. done.
Qed.

Lemma try_block_spec E review nb result w errs :
  heap w !! errors_loc = Some errs ->
  dict_get "errors" result = Some (VList errors_loc) ->
  writes block_keys (snd nb) ->
  exists w',
    try_block E review (fst nb) (snd nb) result w
    = (Ok (apply_assigns (fst (snd nb)) result), w')
    /\ heap w' = <[errors_loc := errs ++ block_msgs E nb]> (heap w)
    /\ clock w' = (clock w + List.length (block_msgs E nb))%nat
    /\ n_http w' = n_http w.
Proof.
  intros Hh Hd Hw. unfold try_block, block_msgs.
  destruct (snd (snd nb)) as [[]|e].
  - exists w. rewrite app_nil_r, insert_id by done.
    cbn [List.length]. rewrite Nat.add_0_r. done.
  - destruct (_handle_review_exception_spec E
               (apply_assigns (fst (snd nb)) result) review (fst nb) e w errs Hh)
      as (w' & Hr & Hheap & Hclock & Hn).
    + rewrite dict_get_apply_assigns; [done|].
      intros Hin. apply in_map_iff in Hin as (kv & Hk & Hin).
      apply Hw in Hin. rewrite Hk in Hin. simpl in Hin.
      repeat (destruct Hin as [Hin|Hin]; [discriminate Hin|]). done.
    + exists w'. cbn [List.length]. rewrite Hclock. repeat split; try done. lia.
Qed.

Lemma run_blocks_spec E review bs : forall result w errs,
  heap w !! errors_loc = Some errs ->
  dict_get "errors" result = Some (VList errors_loc) ->
  Forall (fun nb => writes block_keys (snd nb)) bs ->
  exists w',
    run_blocks E review bs result w
    = (Ok (apply_assigns (flat_map (fun nb => fst (snd nb)) bs) result), w')
    /\ heap w' = <[errors_loc := errs ++ flat_map (block_msgs E) bs]> (heap w)
    /\ clock w' = (clock w + List.length (flat_map (block_msgs E) bs))%nat
    /\ n_http w' = n_http w.
Proof.
  induction bs as [|nb bs IH]; intros result w errs Hh Hd Hw.
  - exists w. simpl. rewrite app_nil_r, insert_id by done.
    rewrite Nat.add_0_r. done.
  - apply Forall_cons in Hw as [Hnb Hw].
    destruct (try_block_spec E review nb result w errs Hh Hd Hnb)
      as (w1 & H1 & Hheap1 & Hclock1 & Hn1).
    destruct (IH (apply_assigns (fst (snd nb)) result) w1
                 (errs ++ block_msgs E nb)) as (w2 & H2 & Hheap2 & Hclock2 & Hn2).
    + rewrite Hheap1. apply lookup_insert_eq.
    + destruct (snd nb) as [l r] eqn:Eb. simpl.
      rewrite dict_get_apply_assigns; [done|].
      intros Hin. apply in_map_iff in Hin as (kv & Hk & Hin).
      apply Hnb in Hin. rewrite Hk in Hin. simpl in Hin.
      repeat (destruct Hin as [Hin|Hin]; [discriminate Hin|]). done.
    + done.
    + exists w2. cbn [run_blocks flat_map]. unfold bind. rewrite H1, H2.
      rewrite apply_assigns_app, Hheap2, Hheap1, insert_insert_eq, <- app_assoc.
      rewrite Hclock2, Hclock1, Hn2, Hn1, length_app.
      repeat split; try done. lia.
Qed.

Lemma _parse_review_unfold E review w :
  _parse_review E review w
  = bind (run_blocks E review (bodies review) (dict_copy review_default_result))
         (fun result =>
            bind tick (fun k =>
              ret (dict_set "retrieval_date" (VStr (now_str E k)) result))) w.
Proof.
  unfold _parse_review, bodies. cbn [run_blocks fst snd]. unfold bind.
  repeat match goal with
         | |- context [try_block ?a ?b ?c ?d ?e ?w0] =>
             destruct (try_block a b c d e w0) as [[?|?] ?]; try reflexivity
         end.
Qed.

Lemma failures_msgs E review :
  flat_map (block_msgs E) (bodies review)
  = map (fun ne => describe E (fst ne) (snd ne)) (failures review).
Proof.
  unfold failures. induction (bodies review) as [|nb bs IH]; [done|].
  destruct nb as [name [l [[]|e]]]; simpl; by rewrite IH.
Qed.

(** [_parse_review] never raises: it returns the record read off the
    blocks, and the shared error list has grown by one description per
    block that raised. *)
Lemma _parse_review_spec E review w errs :
  heap w !! errors_loc = Some errs ->
  exists w',
    _parse_review E review w
    = (Ok (parsed_record review
             (now_str E (clock w + List.length (failures review)))), w')
    /\ heap w'
       = <[errors_loc := errs ++ map (fun ne => describe E (fst ne) (snd ne))
                                     (failures review)]> (heap w)
    /\ n_http w' = n_http w.
Proof.
  intros Hh. rewrite _parse_review_unfold.
  destruct (run_blocks_spec E review (bodies review)
              (dict_copy review_default_result) w errs Hh eq_refl
              (bodies_write review)) as (w1 & H1 & Hheap & Hclock & Hn).
  unfold bind at 1. rewrite H1. unfold bind, tick, ret.
  rewrite Hclock, failures_msgs, length_map.
  eexists. split; [reflexivity|].
  cbn [heap n_http]. by rewrite Hheap, failures_msgs.
Qed.

Lemma rows_of_app tr1 tr2 : rows_of (tr1 ++ tr2) = rows_of tr1 ++ rows_of tr2.
Proof. unfold rows_of. apply omap_app. Qed.

Lemma rows_of_quiet evs : Forall quiet evs -> rows_of evs = [].
Proof.
  induction 1 as [|e evs He _ IH]; [done|].
  unfold rows_of in *. destruct e; simpl in *; try done.
Qed.

Lemma review_loop_spec E tok reviews : forall j0 results0 w errs,
  heap w !! errors_loc = Some errs ->
  exists rs w',
    review_loop E reviews tok j0 results0 w
    = (Ok ((j0 + List.length reviews)%nat, results0 ++ rs, None), w')
    /\ rows_of (trace w') = rows_of (trace w) ++ rs
    /\ Forall2 (stamped tok) reviews rs
    /\ heap w' = <[errors_loc := errs ++ error_msgs E reviews]> (heap w)
    /\ n_http w' = n_http w.
Proof.
  induction reviews as [|review rest IH]; intros j0 results0 w errs Hh.
  - exists [], w. cbn [review_loop]. unfold ret, error_msgs. simpl.
    rewrite Nat.add_0_r, !app_nil_r, insert_id by done. repeat split; done.
  - destruct (_parse_review_spec E review w errs Hh) as (w1 & Hp & Hheap1 & Hn1).
    destruct (_parse_review_quiet E review _ _ _ Hp) as (evs & Htr & Hq).
    set (r := dict_set "token" (VStr tok)
                (parsed_record review
                   (now_str E (clock w + List.length (failures review))))).
    set (w2 := {| heap := heap w1; clock := clock w1; n_http := n_http w1;
                  trace := (trace w1 ++ [EvRow r (list_contents
                     (default VNone (dict_get "errors" r)) w1)]) ++ [EvFlush] |}).
    destruct (IH (S j0) (results0 ++ [r]) w2
                 (errs ++ map (fun ne => describe E (fst ne) (snd ne))
                              (failures review)))
      as (rs & w' & Hl & Hrows & Hst & Hheap & Hn).
    { subst w2. cbn [heap]. rewrite Hheap1. apply lookup_insert_eq. }
    exists (r :: rs), w'. cbn [review_loop]. rewrite Hp.
    unfold bind at 1. unfold write_row at 1. unfold emit at 1.
    unfold bind at 1. unfold emit at 1. cbn [heap clock n_http trace].
    fold r. fold w2. rewrite Hl.
    split; [|split; [|split; [|split]]].
    + rewrite <- app_assoc. cbn [List.length]. by rewrite Nat.add_succ_r.
    + rewrite Hrows. subst w2. cbn [trace]. rewrite Htr, !rows_of_app.
      rewrite (rows_of_quiet evs Hq).
      change (rows_of [EvFlush]) with (@nil pydict).
      match goal with
      | |- context [rows_of [EvRow r ?x]] => change (rows_of [EvRow r x]) with [r]
      end.
      by rewrite !app_nil_r, <- app_assoc.
    + constructor; [by eexists|done].
    + rewrite Hheap. subst w2. cbn [heap]. rewrite Hheap1, insert_insert_eq.
      unfold error_msgs. cbn [flat_map]. by rewrite app_assoc.
    + rewrite Hn. subst w2. cbn [n_http]. done.
Qed.

Lemma assignments_keys review k :
  In k (map fst (assignments review)) -> In k block_keys.
Proof.
  unfold assignments. intros Hin.
  apply in_map_iff in Hin as (kv & <- & Hin).
  apply in_flat_map in Hin as (nb & Hnb & Hin).
  pose proof (bodies_write review) as Hw.
  rewrite List.Forall_forall in Hw. exact (Hw nb Hnb kv Hin).
Qed.

Lemma parsed_record_default review ts k :
  ~ In k (map fst (assignments review)) -> k <> "retrieval_date" ->
  dict_get k (parsed_record review ts) = dict_get k review_default_result.
Proof.
  intros Hk Hne. unfold parsed_record.
  rewrite dict_get_set_ne by done. by apply dict_get_apply_assigns.
Qed.

Lemma parsed_record_errors review ts :
  dict_get "errors" (parsed_record review ts) = Some (VList errors_loc).
Proof.
  rewrite parsed_record_default; [done| |done].
  intros Hin. apply assignments_keys in Hin. simpl in Hin.
  repeat (destruct Hin as [Hin|Hin]; [discriminate Hin|]). done.
Qed.

(** C1. Whatever the blocks of [_parse_review] do on a review, the
    function returns a record: a field no block assigned keeps its
    default, the record's error list has gained one description per block
    that raised (so it is not empty when a block raised), and the loop
    over the reviews of a page writes one stamped record per review and
    ends without an exception. *)
Theorem extraction_failure_is_never_fatal (E : Env) (w : world)
    (errs : list string) :
  heap w !! errors_loc = Some errs ->
  (forall review : option node,
     exists r w',
       _parse_review E review w = (Ok r, w')
       /\ (forall k, ~ In k (map fst (assignments review)) ->
                     k <> "retrieval_date" ->
                     dict_get k r = dict_get k review_default_result)
       /\ list_contents (default VNone (dict_get "errors" r)) w'
          = errs ++ map (fun ne => describe E (fst ne) (snd ne)) (failures review)
       /\ (failures review <> [] ->
           list_contents (default VNone (dict_get "errors" r)) w' <> []))
  /\ (forall (reviews : list (option node)) tok j0 results0,
        exists rs w',
          review_loop E reviews tok j0 results0 w
          = (Ok ((j0 + List.length reviews)%nat, results0 ++ rs, None), w')
          /\ rows_of (trace w') = rows_of (trace w) ++ rs
          /\ Forall2 (stamped tok) reviews rs).
Proof.
  intros Hh. split.
  - intros review.
    destruct (_parse_review_spec E review w errs Hh) as (w' & Hp & Hheap & _).
    eexists _, w'. split; [exact Hp|].
    assert (Hc : list_contents
                   (default VNone
                      (dict_get "errors"
                         (parsed_record review
                            (now_str E (clock w + List.length (failures review))))))
                   w'
                 = errs ++ map (fun ne => describe E (fst ne) (snd ne))
                               (failures review)).
    { rewrite parsed_record_errors.
      change (default VNone (Some (VList errors_loc))) with (VList errors_loc).
      unfold list_contents. by rewrite Hheap, lookup_insert_eq. }
    split; [|split].
    + intros k Hk Hne. by apply parsed_record_default.
    + exact Hc.
    + intros Hf. rewrite Hc. destruct (failures review); [done|].
      intros Heq. apply app_eq_nil in Heq as [_ Heq]. discriminate Heq.
  - intros reviews tok j0 results0.
    destruct (review_loop_spec E tok reviews j0 results0 w errs Hh)
      as (rs & w' & Hl & Hrows & Hst & _).
    by exists rs, w'.
Qed.


(** ** The page loop *)

Lemma quiet_silent e : quiet e -> silent e.
Proof. destruct e as [[]| | | | |]; simpl; done. Qed.

Lemma quiet_row_token tok e : quiet e -> row_token_is tok e.
Proof. destruct e; simpl; done. Qed.

Lemma pages_app tr1 tr2 : pages (tr1 ++ tr2) = (pages tr1 + pages tr2)%nat.
Proof. unfold pages. by rewrite List.filter_app, length_app. Qed.

Lemma limit_reached_app tr1 tr2 :
  limit_reached (tr1 ++ tr2) = limit_reached tr1 || limit_reached tr2.
Proof. apply existsb_app. Qed.

Lemma pages_silent evs : Forall silent evs -> pages evs = 0%nat.
Proof.
  induction 1 as [|e evs [He _] _ IH]; [done|].
  unfold pages in *. simpl. by rewrite He.
Qed.

Lemma limit_silent evs : Forall silent evs -> limit_reached evs = false.
Proof.
  induction 1 as [|e evs [_ He] _ IH]; [done|].
  unfold limit_reached in *. simpl. by rewrite He.
Qed.

Section Loop.
Context (E : Env) (self : scraper).

Lemma http_get_quiet tok query : emits quiet (http_get E tok query).
Proof. intros w r w' [= <- <-]. eexists [_]. split; [done|]. by repeat constructor. Qed.

Lemma _get_api_response_quiet fid a hl0 sid topic tok :
  emits quiet (_get_api_response E self fid a hl0 sid topic tok).
Proof.
  unfold _get_api_response. cbv zeta.
  apply emits_bind; [apply http_get_quiet|intros ?].
  repeat emits_step.
Qed.

Lemma fetch_retrying_quiet n i fid hl0 sid tok :
  emits quiet (fetch_retrying E self n i fid hl0 sid tok).
Proof.
  induction n as [|n IH]; cbn [fetch_retrying]; [emits_step|].
  apply emits_try_except.
  - apply emits_bind; [apply _get_api_response_quiet|intros ?]. emits_step.
  - intros e. unfold log, sleep. repeat emits_step.
Qed.

Lemma fetch_retrying_ok n i fid hl0 sid tok w :
  exists o w', fetch_retrying E self n i fid hl0 sid tok w = (Ok o, w').
Proof.
  revert w. induction n as [|n IH]; intros w; cbn [fetch_retrying].
  - by eexists _, _.
  - unfold try_except, bind at 1.
    destruct (_get_api_response E self fid EmptyString hl0 sid EmptyString tok w)
      as [[p|e] w1].
    + by eexists _, _.
    + unfold bind, log, sleep, emit. apply IH.
Qed.

Lemma review_loop_rows tok reviews : forall j0 results0,
  emits (fun e => row_token_is tok e /\ silent e)
        (review_loop E reviews tok j0 results0).
Proof.
  induction reviews as [|review rest IH]; intros j0 results0; cbn [review_loop].
  - emits_step.
  - intros w r w' H.
    destruct (_parse_review E review w) as [[result|e] w1] eqn:Hp.
    + destruct (_parse_review_quiet E review _ _ _ Hp) as (ev1 & T1 & F1).
      unfold bind at 1, write_row at 1, emit at 1 in H.
      unfold bind at 1, emit at 1 in H. cbn [heap clock n_http trace] in H.
      destruct (IH _ _ _ _ _ H) as (ev2 & T2 & F2). cbn [trace] in T2.
      eexists. split; [rewrite T2, T1, <- !app_assoc; reflexivity|].
      apply Forall_app. split.
      * eapply Forall_impl; [exact F1|]. intros e He.
        split; [by apply quiet_row_token | by apply quiet_silent].
      * repeat constructor; [|exact F2]. simpl. apply dict_get_set_eq.
    + injection H as <- <-.
      destruct (_parse_review_quiet E review _ _ _ Hp) as (ev1 & T1 & F1).
      exists ev1. split; [done|]. eapply Forall_impl; [exact F1|]. intros e' He.
      split; [by apply quiet_row_token | by apply quiet_silent].
Qed.

Lemma review_loop_ok tok reviews : forall j0 results0 w,
  exists x w', review_loop E reviews tok j0 results0 w = (Ok x, w').
Proof.
  induction reviews as [|review rest IH]; intros j0 results0 w; cbn [review_loop].
  - by eexists _, _.
  - destruct (_parse_review E review w) as [[result|e] w1]; [|by eexists _, _].
    unfold bind, write_row, emit. apply IH.
Qed.

(** The [try] statement around the review loop catches everything: the
    page loop goes on with the count and the token it had. *)
Lemma parse_page_ok i v w :
  exists v' w',
    parse_page E i v w = (Ok v', w')
    /\ reviews_soup v' = reviews_soup v
    /\ review_count v' = review_count v
    /\ token v' = token v.
Proof.
  unfold parse_page. destruct (reviews_soup v) as [reviews|] eqn:Hr.
  - destruct (review_loop_ok (token v) reviews (j v) (results v) w)
      as ([[j1 res1] oe] & w1 & Hl).
    unfold bind at 1. rewrite Hl. cbn [fst snd].
    destruct oe; unfold bind, log, emit, ret; by eexists _, _.
  - unfold bind, log, emit, ret. eexists _, _. by rewrite Hr.
Qed.

Lemma parse_page_rows i v :
  emits (fun e => row_token_is (token v) e /\ silent e) (parse_page E i v).
Proof.
  unfold parse_page. destruct (reviews_soup v) as [reviews|].
  - apply emits_bind; [apply review_loop_rows|intros r].
    destruct (snd r); unfold log; repeat emits_step.
  - unfold log. repeat emits_step.
Qed.

Lemma page_iteration_fetched fid hl0 sid i v w soup rs rc tok w1 :
  fetch_retrying E self (Z.to_nat (n_retries self)) i fid hl0 sid (token v)
                 (started i v w)
  = (Ok (Some (soup, rs, rc, tok)), w1) ->
  exists v' w2,
    parse_page E i (assigned v rs rc tok) w1 = (Ok v', w2)
    /\ review_count v' = Some rc
    /\ token v' = tok
    /\ page_iteration E self fid hl0 sid i v w
       = if (rc <? 10) || String.eqb tok EmptyString
         then (Ok (true, v'), snd (log (LogReviewLimit (j v')) w2))
         else (Ok (false, v'), snd (sleep (request_interval self) w2)).
Proof.
  intros Hf.
  destruct (parse_page_ok i (assigned v rs rc tok) w1)
    as (v' & w2 & Hp & _ & Hrc & Htok).
  exists v', w2. split; [done|]. split; [done|]. split; [done|].
  unfold page_iteration. unfold bind at 1. unfold log at 1, emit at 1.
  unfold started, log, emit in Hf. cbn [snd] in Hf.
  unfold bind at 1. rewrite Hf. fold (assigned v rs rc tok).
  unfold bind at 1. rewrite Hp.
  unfold bind at 1, lift. rewrite Hrc, Htok.
  cbn [assigned review_count token bound].
  destruct ((rc <? 10) || String.eqb tok EmptyString); reflexivity.
Qed.

(** C4. After a page fetch that succeeded with count [rc] and token
    [tok], the loop ends there, before any further request, exactly when
    [rc < 10] or [tok] is empty; otherwise it sleeps and goes on with the
    remaining pages. *)
Theorem loop_stops_exactly_on_limit fid hl0 sid i rest last v w soup rs rc tok w1 :
  fetch_retrying E self (Z.to_nat (n_retries self)) i fid hl0 sid (token v)
                 (started i v w)
  = (Ok (Some (soup, rs, rc, tok)), w1) ->
  exists v' w2,
    parse_page E i (assigned v rs rc tok) w1 = (Ok v', w2)
    /\ review_count v' = Some rc
    /\ token v' = tok
    /\ for_loop E self fid hl0 sid (i :: rest) last v w
       = if (rc <? 10) || String.eqb tok EmptyString
         then (Ok (Some i, v'), snd (log (LogReviewLimit (j v')) w2))
         else for_loop E self fid hl0 sid rest (Some i) v'
                       (snd (sleep (request_interval self) w2)).
Proof.
  intros Hf.
  destruct (page_iteration_fetched fid hl0 sid i v w soup rs rc tok w1 Hf)
    as (v' & w2 & Hp & Hrc & Htok & Hit).
  exists v', w2. split; [done|]. split; [done|]. split; [done|].
  cbn [for_loop]. unfold bind at 1. rewrite Hit.
  destruct ((rc <? 10) || String.eqb tok EmptyString); reflexivity.
Qed.

(** C3 (as amended). Every row written during a page iteration whose
    fetch succeeded carries the next-page token that this fetch
    returned. *)
Theorem rows_carry_returned_token fid hl0 sid i v w soup rs rc tok w1 :
  fetch_retrying E self (Z.to_nat (n_retries self)) i fid hl0 sid (token v)
                 (started i v w)
  = (Ok (Some (soup, rs, rc, tok)), w1) ->
  exists evs,
    trace (snd (page_iteration E self fid hl0 sid i v w)) = trace w ++ evs
    /\ Forall (row_token_is tok) evs.
Proof.
  intros Hf.
  destruct (page_iteration E self fid hl0 sid i v w) as [r w'] eqn:Hit.
  cbn [snd].
  destruct (page_iteration_fetched fid hl0 sid i v w soup rs rc tok w1 Hf)
    as (v' & w2 & Hp & Hrc & Htok & Hit').
  rewrite Hit' in Hit.
  destruct (fetch_retrying_quiet _ _ _ _ _ _ _ _ _ Hf) as (ev1 & T1 & F1).
  destruct (parse_page_rows i (assigned v rs rc tok) _ _ _ Hp) as (ev2 & T2 & F2).
  unfold started, log, emit in T1. cbn [snd trace] in T1.
  assert (Hpre : Forall (row_token_is tok) (EvLog (LogRequest i (j v)) :: ev1 ++ ev2)).
  { constructor; [done|]. apply Forall_app. split.
    - eapply Forall_impl; [exact F1|]. intros e. apply quiet_row_token.
    - eapply Forall_impl; [exact F2|]. by intros e [He _]. }
  assert (Hw' : exists e, trace w' = trace w2 ++ [e]).
  { destruct ((rc <? 10) || String.eqb tok EmptyString);
      injection Hit as <- <-; unfold log, sleep, emit; cbn [snd trace];
      by eexists. }
  destruct Hw' as (e & T3).
  exists ((EvLog (LogRequest i (j v)) :: ev1 ++ ev2) ++ [e]). split.
  - rewrite T3, T2, T1. cbn [app]. by rewrite <- !app_assoc.
  - apply Forall_app. split; [exact Hpre|].
    constructor; [|done].
    destruct ((rc <? 10) || String.eqb tok EmptyString);
      injection Hit as <- <-; unfold log, sleep, emit in T3;
      cbn [snd trace] in T3; apply app_inj_tail in T3 as [_ <-]; done.
Qed.

Lemma pages_cons_start i0 j0 evs :
  pages (EvLog (LogRequest i0 j0) :: evs) = S (pages evs).
Proof. reflexivity. Qed.

Lemma page_iteration_pages fid hl0 sid i v w :
  exists evs,
    trace (snd (page_iteration E self fid hl0 sid i v w)) = trace w ++ evs
    /\ pages evs = 1%nat
    /\ match fst (page_iteration E self fid hl0 sid i v w) with
       | Ok (true, _) => limit_reached evs = true
       | Ok (false, v') => limit_reached evs = false /\ review_count v' <> None
       | Raise _ =>
           limit_reached evs = false
           /\ review_count v = None
           /\ exists w1,
                fetch_retrying E self (Z.to_nat (n_retries self)) i fid hl0 sid
                               (token v) (started i v w)
                = (Ok None, w1)
       end.
Proof.
  destruct (fetch_retrying_ok (Z.to_nat (n_retries self)) i fid hl0 sid (token v)
              (started i v w)) as (o & w1 & Hf).
  destruct (fetch_retrying_quiet _ _ _ _ _ _ _ _ _ Hf) as (ev1 & T1 & F1).
  unfold started, log, emit in T1. cbn [snd trace] in T1.
  assert (S1 : Forall silent ev1).
  { eapply Forall_impl; [exact F1|]. exact quiet_silent. }
  destruct o as [[[[soup rs] rc] tok]|].
  - destruct (page_iteration_fetched fid hl0 sid i v w soup rs rc tok w1 Hf)
      as (v' & w2 & Hp & Hrc & Htok & ->).
    destruct (parse_page_rows i (assigned v rs rc tok) _ _ _ Hp) as (ev2 & T2 & F2).
    assert (S2 : Forall silent ev2).
    { eapply Forall_impl; [exact F2|]. by intros e [_ He]. }
    destruct ((rc <? 10) || String.eqb tok EmptyString);
      unfold log, sleep, emit; cbn [fst snd trace];
      eexists (EvLog (LogRequest i (j v)) :: ev1 ++ ev2 ++ [_]);
      (split; [rewrite T2, T1; cbn [app]; by rewrite <- !app_assoc|]);
      rewrite pages_cons_start, !pages_app, (pages_silent _ S1), (pages_silent _ S2);
      (split; [done|]);
      change (EvLog (LogRequest i (j v)) :: ev1 ++ ev2 ++ ?l)
        with ([EvLog (LogRequest i (j v))] ++ ev1 ++ ev2 ++ l);
      rewrite !limit_reached_app, (limit_silent _ S1), (limit_silent _ S2);
      [done|]. split; [done|]. by rewrite Hrc.
  - destruct (parse_page_ok i v w1) as (v' & w2 & Hp & _ & Hrc & Htok).
    destruct (parse_page_rows i v _ _ _ Hp) as (ev2 & T2 & F2).
    assert (S2 : Forall silent ev2).
    { eapply Forall_impl; [exact F2|]. by intros e [_ He]. }
    assert (Hit : page_iteration E self fid hl0 sid i v w
                  = match review_count v with
                    | Some rc =>
                        if (rc <? 10) || String.eqb (token v) EmptyString
                        then (Ok (true, v'), snd (log (LogReviewLimit (j v')) w2))
                        else (Ok (false, v'), snd (sleep (request_interval self) w2))
                    | None => (Raise UnboundLocalError, w2)
                    end).
    { unfold page_iteration. unfold bind at 1. unfold log at 1, emit at 1.
      unfold started, log, emit in Hf. cbn [snd] in Hf.
      unfold bind at 1. rewrite Hf. unfold bind at 1. rewrite Hp.
      unfold bind at 1, lift. rewrite Hrc, Htok.
      destruct (review_count v) as [rc|]; cbn [bound]; [|done].
      destruct ((rc <? 10) || String.eqb (token v) EmptyString); reflexivity. }
    rewrite Hit. destruct (review_count v) as [rc|] eqn:Hv.
    + destruct ((rc <? 10) || String.eqb (token v) EmptyString);
        unfold log, sleep, emit; cbn [fst snd trace];
        eexists (EvLog (LogRequest i (j v)) :: ev1 ++ ev2 ++ [_]);
        (split; [rewrite T2, T1; cbn [app]; by rewrite <- !app_assoc|]);
        rewrite pages_cons_start, !pages_app, (pages_silent _ S1), (pages_silent _ S2);
        (split; [done|]);
        change (EvLog (LogRequest i (j v)) :: ev1 ++ ev2 ++ ?l)
          with ([EvLog (LogRequest i (j v))] ++ ev1 ++ ev2 ++ l);
        rewrite !limit_reached_app, (limit_silent _ S1), (limit_silent _ S2);
        [done|]. split; [done|]. by rewrite Hrc.
    + cbn [fst snd]. exists (EvLog (LogRequest i (j v)) :: ev1 ++ ev2).
      split; [rewrite T2, T1; cbn [app]; by rewrite <- !app_assoc|].
      rewrite pages_cons_start, !pages_app, (pages_silent _ S1), (pages_silent _ S2).
      split; [done|].
      change (EvLog (LogRequest i (j v)) :: ev1 ++ ev2)
        with ([EvLog (LogRequest i (j v))] ++ ev1 ++ ev2).
      rewrite !limit_reached_app, (limit_silent _ S1), (limit_silent _ S2).
      split; [done|]. split; [done|]. by exists w1.
Qed.

Lemma for_loop_pages fid hl0 sid range : forall last v w,
  exists evs,
    trace (snd (for_loop E self fid hl0 sid range last v w)) = trace w ++ evs
    /\ match fst (for_loop E self fid hl0 sid range last v w) with
       | Ok _ =>
           pages evs = List.length range
           \/ (limit_reached evs = true /\ (pages evs <= List.length range)%nat)
       | Raise _ =>
           pages evs = 1%nat
           /\ review_count v = None
           /\ exists i rest w1,
                range = i :: rest
                /\ fetch_retrying E self (Z.to_nat (n_retries self)) i fid hl0 sid
                                  (token v) (started i v w)
                   = (Ok None, w1)
       end.
Proof.
  induction range as [|i rest IH]; intros last v w.
  - exists []. cbn [for_loop]. unfold ret. cbn [fst snd].
    rewrite app_nil_r. split; [done|]. by left.
  - destruct (page_iteration_pages fid hl0 sid i v w) as (ev1 & T1 & P1 & C1).
    cbn [for_loop]. unfold bind.
    destruct (page_iteration E self fid hl0 sid i v w) as [[[[] v1]|e] w1];
      cbn [fst snd] in *.
    + exists ev1. unfold ret. cbn [fst snd]. split; [done|].
      right. split; [done|]. cbn [List.length]. lia.
    + destruct C1 as [L1 Hrc].
      destruct (IH (Some i) v1 w1) as (ev2 & T2 & C2).
      exists (ev1 ++ ev2). split; [by rewrite T2, T1, <- app_assoc|].
      destruct (for_loop E self fid hl0 sid rest (Some i) v1 w1) as [[[last' v2]|e] w2];
        cbn [fst snd] in *.
      * rewrite pages_app, limit_reached_app, P1, L1. cbn [List.length].
        destruct C2 as [P2|(L2 & P2)].
        -- left. lia.
        -- right. split; [done|]. lia.
      * destruct C2 as (_ & Hnone & _). done.
    + destruct C1 as (L1 & Hnone & w0 & Hf).
      exists ev1. split; [done|]. split; [done|]. split; [done|].
      by exists i, rest, w0.
Qed.

Lemma n_requests_of_ceil N :
  10 * n_requests_of N - 10 < N <= 10 * n_requests_of N.
Proof.
  unfold n_requests_of.
  pose proof (Z.div_mod (N + 9) 10 ltac:(lia)).
  pose proof (Z.mod_pos_bound (N + 9) 10 ltac:(lia)). lia.
Qed.

(** X21. The page count in general: [scrape_reviews] begins ceil(N/10) page
    iterations, unless a termination condition fired on an earlier page,
    or no fetch of the first page succeeded, in which case that page is
    the only one. *)
Theorem page_count url N hl0 sort_by tok w name fid :
  index (re_findall re_place_name url) 0 = Ok name ->
  _parse_url_to_feature_id url = Ok fid ->
  10 * n_requests_of N - 10 < N <= 10 * n_requests_of N
  /\ exists evs,
       trace (snd (scrape_reviews E self url N hl0 sort_by tok w)) = trace w ++ evs
       /\ (pages evs = Z.to_nat (n_requests_of N)
           \/ (limit_reached evs = true
               /\ (pages evs <= Z.to_nat (n_requests_of N))%nat)
           \/ (pages evs = 1%nat
               /\ exists w1,
                    fetch_retrying E self (Z.to_nat (n_retries self)) 0 fid hl0
                      (str_of_int (_parse_sort_by E sort_by)) tok
                      (started 0 (initial tok)
                         (snd (log (LogScraping (unquote_plus E name)) w)))
                    = (Ok None, w1))).
Proof.
  intros Hname Hfid. split; [apply n_requests_of_ceil|].
  unfold scrape_reviews. unfold bind at 1, lift at 1. rewrite Hname.
  unfold bind at 1. unfold log at 1, emit at 1.
  unfold bind at 1, lift at 1. rewrite Hfid. cbv zeta.
  fold (initial tok).
  set (w0 := {| heap := heap w; clock := clock w; n_http := n_http w;
                trace := trace w ++ [EvLog (LogScraping (unquote_plus E name))] |}).
  destruct (for_loop_pages fid hl0 (str_of_int (_parse_sort_by E sort_by))
              (seq 0 (Z.to_nat (n_requests_of N))) None (initial tok) w0)
    as (evs & T & C).
  unfold bind at 1.
  destruct (for_loop E self fid hl0 (str_of_int (_parse_sort_by E sort_by))
              (seq 0 (Z.to_nat (n_requests_of N))) None (initial tok) w0)
    as [[[last' v']|e] w1]; cbn [fst snd] in *.
  - rewrite length_seq in C.
    destruct last' as [i|].
    + unfold bind, lift, bound, log, emit, ret. cbn [fst snd trace].
      exists ((EvLog (LogScraping (unquote_plus E name)) :: evs)
              ++ [EvLog (LogDone (i + 1) (j v'))]).
      split; [rewrite T; subst w0; cbn [trace app]; by rewrite <- !app_assoc|].
      rewrite pages_app, limit_reached_app.
      change (pages [EvLog (LogDone (i + 1) (j v'))]) with 0%nat.
      change (pages (EvLog (LogScraping (unquote_plus E name)) :: evs)) with (pages evs).
      change (limit_reached (EvLog (LogScraping (unquote_plus E name)) :: evs))
        with (limit_reached evs).
      rewrite Nat.add_0_r.
      destruct C as [P|(L & P)]; [by left|].
      right. left. rewrite L. done.
    + unfold bind, lift, bound. cbn [fst snd].
      exists (EvLog (LogScraping (unquote_plus E name)) :: evs).
      split; [rewrite T; subst w0; cbn [trace app]; by rewrite <- !app_assoc|].
      change (pages (EvLog (LogScraping (unquote_plus E name)) :: evs)) with (pages evs).
      change (limit_reached (EvLog (LogScraping (unquote_plus E name)) :: evs))
        with (limit_reached evs).
      destruct C as [P|(L & P)]; [by left|by right; left].
  - destruct C as (P & _ & i & rest & w2 & Hrange & Hf).
    exists (EvLog (LogScraping (unquote_plus E name)) :: evs).
    split; [rewrite T; subst w0; cbn [trace app]; by rewrite <- !app_assoc|].
    change (pages (EvLog (LogScraping (unquote_plus E name)) :: evs)) with (pages evs).
    right. right. split; [done|]. exists w2.
    destruct (Z.to_nat (n_requests_of N)) as [|n]; [discriminate Hrange|].
    cbn [seq] in Hrange. injection Hrange as <- _. exact Hf.
Qed.

End Loop.

(** ** The claims on concrete inputs *)

Lemma cut_response_span_witness :
  _cut_response "no closing tag" = Raise AttributeError
  /\ _cut_response ")]}'<div class='a'>x</div><script>"
     = Ok "<html><body><div class='a'>x</div></body></html>".
Proof.
  destruct (cut_response_span "no closing tag") as [H _].
  destruct (cut_response_span ")]}'<div class='a'>x</div><script>") as [_ H'].
  split; [apply H; reflexivity|].
  apply (H' 4%nat 20%nat); [reflexivity | reflexivity | lia].
Defined.

(** C6, as stated, fails: a [<div>] without attributes is not where the
    cut starts, and a text without [<div] is cut, not refused. *)
Lemma cut_response_counterexample :
  ~ cut_meets_claim "<div>a</div>" /\ ~ cut_meets_claim "x</div>".
Proof.
  split.
  - unfold cut_meets_claim.
    change (claimed_cut_response "<div>a</div>")
      with (Some "<html><body><div>a</div></body></html>").
    change (_cut_response "<div>a</div>") with (Ok "<html><body>></body></html>").
    discriminate.
  - unfold cut_meets_claim.
    change (claimed_cut_response "x</div>") with (@None string).
    change (_cut_response "x</div>") with (Ok "<html><body>></body></html>").
    intros [e He]. discriminate He.
Qed.

(** C7. [_parse_review_text] pairs the i-th child with the i-th
    non-blank text below the block, so text of the classed element
    enters the result; and it replaces whitespace characters one by one,
    so a run stays a run. *)
Theorem review_text_diverges :
  _parse_review_text text_with_footer = "Rooms: 5"
  /\ claimed_review_text text_with_footer = " "
  /\ _parse_review_text text_with_gap = "good  food"
  /\ claimed_review_text text_with_gap = "good food".
Proof. repeat split; vm_compute; reflexivity. Qed.

(** C8. On the Spanish label the pattern finds one number only: the
    rating is 4.0, reading the second number raises [IndexError], and
    [rating_max] stays missing. *)
Theorem spanish_label_loses_rating_max :
  rating_numbers "4,0 de un máximo de 5 estrellas" = ["4.0"]
  /\ rating_body (Some spanish_review) = ([("rating", VFloat (4 # 1))], Raise IndexError)
  /\ (fun r => (dict_get "rating" r, dict_get "rating_max" r))
       <$> returned (_parse_review down_env (Some spanish_review) world0)
     = Some (Some (VFloat (4 # 1)), Some VNone)
  /\ heap (snd (_parse_review down_env (Some spanish_review) world0)) !! errors_loc
     = Some [ "review rating:IndexError";
              "review relative_date:AttributeError";
              "review user_name:AttributeError";
              "review review_id:AttributeError" ].
Proof. repeat split; vm_compute; reflexivity. Qed.

(** C10. The record of a review parsed without any failure has an empty
    error list; after the next review is parsed, the same record shows
    the failures of that other review, because both records hold the one
    list of [review_default_result]. *)
Theorem later_failures_reach_earlier_record :
  let first := _parse_review down_env (Some full_review) world0 in
  let second := _parse_review down_env (Some bare_review) (snd first) in
  failures (Some full_review) = []
  /\ (dict_get "errors" <$> returned first) = Some (Some (VList errors_loc))
  /\ (dict_get "errors" <$> returned second) = Some (Some (VList errors_loc))
  /\ list_contents (VList errors_loc) (snd first) = []
  /\ list_contents (VList errors_loc) (snd second)
     = [ "review rating:AttributeError";
         "review relative_date:AttributeError";
         "review user_name:AttributeError";
         "review review_id:AttributeError" ].
Proof. repeat split; vm_compute; reflexivity. Qed.

(** X22. The sharing holds for any two reviews: the records of two
    successive [_parse_review] calls hold the same errors list, and the
    failures of the second review are appended to it. *)
Lemma errors_list_shared E a b w errs :
  heap w !! errors_loc = Some errs ->
  exists ra w1 rb w2,
    _parse_review E a w = (Ok ra, w1)
    /\ _parse_review E b w1 = (Ok rb, w2)
    /\ dict_get "errors" ra = Some (VList errors_loc)
    /\ dict_get "errors" rb = Some (VList errors_loc)
    /\ list_contents (VList errors_loc) w2
       = list_contents (VList errors_loc) w1
         ++ map (fun ne => describe E (fst ne) (snd ne)) (failures b).
Proof.
  intros Hh.
  destruct (_parse_review_spec E a w errs Hh) as (w1 & Ha & Hheap1 & _).
  assert (Hh1 : heap w1 !! errors_loc
                = Some (errs ++ map (fun ne => describe E (fst ne) (snd ne))
                                    (failures a))).
  { rewrite Hheap1. apply lookup_insert_eq. }
  destruct (_parse_review_spec E b w1 _ Hh1) as (w2 & Hb & Hheap2 & _).
  eexists _, w1, _, w2. split; [exact Ha|]. split; [exact Hb|].
  split; [apply parsed_record_errors|]. split; [apply parsed_record_errors|].
  unfold list_contents. by rewrite Hheap2, lookup_insert_eq, Hh1.
Qed.

(** C2. With the first page fetched and every attempt at the second one
    failing, the second iteration writes the review of the first page
    again; with no page ever fetched, [scrape_reviews] ends by an
    [UnboundLocalError]. *)
Theorem exhausted_page_is_not_skipped :
  List.length (List.filter is_failed_request
                 (from_page 1 (trace (snd (run one_page_env 20))))) = 3%nat
  /\ dict_get "token" <$> rows_of (from_page 1 (trace (snd (run one_page_env 20))))
     = [Some (VStr "t1")]
  /\ List.length (rows_of (trace (snd (run one_page_env 20)))) = 2%nat
  /\ fst (run down_env 30) = Raise UnboundLocalError.
Proof. repeat split; vm_compute; reflexivity. Qed.

(** C3, as stated, fails: the request of the first page is sent with the
    empty token, and its row carries the token the response returned. *)
Lemma sent_token_counterexample :
  rows_carry_sent_token None (trace (snd (run one_page_env 10))) = false.
Proof. vm_compute. reflexivity. Qed.

(** C5. With thirty reviews asked for and no request ever answered,
    three page iterations are due and no termination condition fires;
    the loop still ends with the first page, by the [UnboundLocalError]
    of line 380.  When it is a later page whose attempts all fail, the
    loop does go on to the pages that remain. *)
Theorem first_page_failure_ends_the_loop :
  Z.to_nat (n_requests_of 30) = 3%nat
  /\ pages (trace (snd (run down_env 30))) = 1%nat
  /\ limit_reached (trace (snd (run down_env 30))) = false
  /\ ~ claimed_page_count 30 (trace (snd (run down_env 30)))
  /\ fst (run down_env 30) = Raise UnboundLocalError
  /\ pages (trace (snd (run one_page_env 30))) = 3%nat.
Proof.
  assert (H1 : pages (trace (snd (run down_env 30))) = 1%nat)
    by (vm_compute; reflexivity).
  assert (H2 : limit_reached (trace (snd (run down_env 30))) = false)
    by (vm_compute; reflexivity).
  repeat split; try (vm_compute; reflexivity).
  unfold claimed_page_count. rewrite H1, H2.
  change (Z.to_nat (n_requests_of 30)) with 3%nat.
  intros [H|H]; discriminate H.
Qed.

Lemma extraction_failure_witness :
  exists r w',
    _parse_review down_env None world0 = (Ok r, w')
    /\ list_contents (default VNone (dict_get "errors" r)) w' <> [].
Proof.
  destruct (extraction_failure_is_never_fatal down_env world0 [] eq_refl) as [H _].
  destruct (H None) as (r & w' & Hp & _ & _ & Hne).
  exists r, w'. split; [exact Hp|]. apply Hne. discriminate.
Defined.

(** With no review node at all, every block raises and nothing is
    assigned. *)
Example every_block_raises_without_node :
  map fst (failures None)
  = [ "text"; "rating"; "other_ratings"; "relative_date"; "user_name";
      "user_data"; "review_id"; "likes"; "response"; "trip_type_travel_group" ]
  /\ assignments None = [].
Proof. split; reflexivity. Qed.

Lemma first_fetch_succeeds :
  first_fetch
  = (Ok (Some (page_soup "25" "t1" [bare_review], [Some bare_review], 25, "t1")),
     snd first_fetch).
Proof. vm_compute. reflexivity. Qed.

Lemma loop_stops_witness :
  exists v' w2,
    parse_page one_page_env 0
               (assigned (initial EmptyString) [Some bare_review] 25 "t1")
               (snd first_fetch) = (Ok v', w2)
    /\ review_count v' = Some 25
    /\ token v' = "t1"
    /\ for_loop one_page_env default_scraper "0x94ce59:0x5c1a2b" EmptyString "1"
                [0%nat; 1%nat] None (initial EmptyString) world0
       = for_loop one_page_env default_scraper "0x94ce59:0x5c1a2b" EmptyString "1"
                  [1%nat] (Some 0%nat) v'
                  (snd (sleep (request_interval default_scraper) w2)).
Proof.
  exact (loop_stops_exactly_on_limit one_page_env default_scraper
           "0x94ce59:0x5c1a2b" EmptyString "1" 0 [1%nat] None
           (initial EmptyString) world0 _ _ 25 "t1" _ first_fetch_succeeds).
Defined.

Lemma returned_token_witness :
  exists evs,
    trace (snd (page_iteration one_page_env default_scraper "0x94ce59:0x5c1a2b"
                               EmptyString "1" 0 (initial EmptyString) world0))
    = trace world0 ++ evs
    /\ Forall (row_token_is "t1") evs.
Proof.
  exact (rows_carry_returned_token one_page_env default_scraper
           "0x94ce59:0x5c1a2b" EmptyString "1" 0 (initial EmptyString) world0
           _ _ 25 "t1" _ first_fetch_succeeds).
Defined.

Lemma page_count_witness :
  10 * n_requests_of 20 - 10 < 20 <= 10 * n_requests_of 20
  /\ exists evs,
       trace (snd (run one_page_env 20)) = trace world0 ++ evs
       /\ (pages evs = Z.to_nat (n_requests_of 20)
           \/ (limit_reached evs = true
               /\ (pages evs <= Z.to_nat (n_requests_of 20))%nat)
           \/ (pages evs = 1%nat
               /\ exists w1,
                    fetch_retrying one_page_env default_scraper
                      (Z.to_nat (n_retries default_scraper)) 0 "0x94ce59:0x5c1a2b"
                      EmptyString
                      (str_of_int (_parse_sort_by one_page_env "newest"))
                      EmptyString
                      (started 0 (initial EmptyString)
                         (snd (log (LogScraping (unquote_plus one_page_env "Cafe"))
                                   world0)))
                    = (Ok None, w1))).
Proof.
  exact (page_count one_page_env default_scraper place_url 20 EmptyString
           "newest" EmptyString world0 "Cafe" "0x94ce59:0x5c1a2b"
           eq_refl eq_refl).
Defined.

(** * Further properties *)

(** ** Components of the world a computation leaves alone *)

Section Keeps.
Context {A B X : Type} (f : world -> X).

Lemma keeps_ret (a : A) : keeps f (ret a).
Proof. by intros w r w' [= <- <-]. Qed.

Lemma keeps_lift (x : result A) : keeps f (lift x).
Proof. by intros w r w' [= <- <-]. Qed.

Lemma keeps_bind (m : M A) (k : A -> M B) :
  keeps f m -> (forall a, keeps f (k a)) -> keeps f (bind m k).
Proof.
  intros Hm Hk w r w' H. unfold bind in H.
  destruct (m w) as [[a|e] w1] eqn:Em.
  - rewrite (Hk a _ _ _ H). exact (Hm _ _ _ Em).
  - injection H as <- <-. exact (Hm _ _ _ Em).
Qed.

Lemma keeps_try_except (m : M A) (h : exn -> M A) :
  keeps f m -> (forall e, keeps f (h e)) -> keeps f (try_except m h).
Proof.
  intros Hm Hh w r w' H. unfold try_except in H.
  destruct (m w) as [[a|e] w1] eqn:Em.
  - injection H as <- <-. exact (Hm _ _ _ Em).
  - rewrite (Hh e _ _ _ H). exact (Hm _ _ _ Em).
Qed.
End Keeps.

Lemma keeps_emit_n_http e : keeps n_http (emit e).
Proof. by intros w r w' [= <- <-]. Qed.

Lemma keeps_emit_heap e : keeps heap (emit e).
Proof. by intros w r w' [= <- <-]. Qed.

Lemma keeps_emit_clock e : keeps clock (emit e).
Proof. by intros w r w' [= <- <-]. Qed.

Lemma keeps_tick_n_http : keeps n_http tick.
Proof. by intros w r w' [= <- <-]. Qed.

Lemma keeps_tick_heap : keeps heap tick.
Proof. by intros w r w' [= <- <-]. Qed.

Lemma keeps_list_append_n_http v x : keeps n_http (list_append v x).
Proof.
  intros w r w' H. unfold list_append in H.
  destruct v; try (by injection H as <- <-).
  destruct (heap w !! l); by injection H as <- <-.
Qed.

Create HintDb keeps.
#[local] Hint Resolve keeps_emit_n_http keeps_emit_heap
  keeps_emit_clock keeps_tick_n_http keeps_tick_heap keeps_list_append_n_http
  : keeps.

Ltac keeps_step :=
  first [ apply keeps_bind; [|intros ?]
        | apply keeps_try_except; [|intros ?]
        | apply keeps_ret
        | apply keeps_lift
        | solve [auto with keeps] ].

Lemma try_block_no_request E review name body result :
  keeps n_http (try_block E review name body result).
Proof.
  unfold try_block. destruct (snd body); [apply keeps_ret|].
  unfold _handle_review_exception, log. repeat keeps_step.
Qed.

Lemma _parse_review_no_request E review : keeps n_http (_parse_review E review).
Proof.
  unfold _parse_review.
  repeat (apply keeps_bind; [apply try_block_no_request|intros ?]).
  repeat keeps_step.
Qed.

Section Fetch.
Context (E : Env) (self : scraper).

Lemma _get_api_response_world fid a hl0 sid topic tok w :
  let w' := snd (_get_api_response E self fid a hl0 sid topic tok w) in
  n_http w' = S (n_http w)
  /\ heap w' = heap w
  /\ clock w' = clock w
  /\ exists query, trace w' = trace w ++ [EvRequest tok query].
Proof.
  unfold _get_api_response. cbv zeta.
  match goal with
  | |- context [bind (http_get E tok ?q) ?k] =>
      generalize q; intros query; set (rest := k)
  end.
  assert (Hrest : forall X (f : world -> X) body, keeps f (rest body)).
  { intros X f body. subst rest. cbv beta. repeat keeps_step. }
  unfold bind, http_get.
  destruct (requests_get E (n_http w) query) as [body|e]; cbn [snd].
  - destruct (rest body _) as [r w'] eqn:Hr. cbn [snd].
    rewrite (Hrest _ n_http _ _ _ _ Hr), (Hrest _ heap _ _ _ _ Hr),
      (Hrest _ clock _ _ _ _ Hr), (Hrest _ trace _ _ _ _ Hr).
    cbn [heap clock n_http trace]. repeat split; try done. by exists query.
  - cbn [heap clock n_http trace]. repeat split; try done. by exists query.
Qed.




Lemma fetch_retrying_shape n i fid hl0 sid tok : forall w,
  exists o w' evs,
    fetch_retrying E self n i fid hl0 sid tok w = (Ok o, w')
    /\ heap w' = heap w
    /\ clock w' = clock w
    /\ trace w' = trace w ++ evs
    /\ Forall (retry_event i tok (retry_time self)) evs
    /\ n_http w' = (n_http w + List.length (List.filter is_request evs))%nat
    /\ (List.length (List.filter is_request evs) <= n)%nat
    /\ match o with
       | Some _ =>
           List.length (List.filter is_request evs)
           = S (List.length (List.filter is_sleep evs))
       | None =>
           List.length (List.filter is_request evs) = n
           /\ List.length (List.filter is_sleep evs) = n
       end.
Proof.
  induction n as [|n IH]; intros w; cbn [fetch_retrying].
  - exists None, w, []. unfold ret. rewrite app_nil_r, Nat.add_0_r.
    repeat split; done.
  - pose proof (_get_api_response_world fid EmptyString hl0 sid EmptyString tok w)
      as (Hn & Hh & Hc & query & Ht).
    unfold try_except, bind at 1.
    destruct (_get_api_response E self fid EmptyString hl0 sid EmptyString tok w)
      as [[p|e] w1]; cbn [snd] in *.
    + exists (Some p), w1, [EvRequest tok query]. unfold ret.
      repeat split; try done.
      * by repeat constructor.
      * rewrite Hn. cbn. lia.
      * cbn. lia.
    + unfold bind, log, sleep, emit. cbn [heap clock n_http trace].
      match goal with
      | |- context [fetch_retrying E self n i fid hl0 sid tok ?w2] =>
          destruct (IH w2) as (o & w' & evs & Hf & Hh' & Hc' & Ht' & Hev & Hn' & Hle & Ho)
      end.
      cbn [heap clock n_http trace] in *.
      exists o, w',
        ([EvRequest tok query; EvLog (LogRequestError i e); EvLog LogWaiting;
          EvSleep (retry_time self)] ++ evs).
      rewrite Hf. split; [done|]. split; [congruence|]. split; [congruence|].
      split; [rewrite Ht', Ht; by rewrite <- !app_assoc|].
      split; [apply Forall_app; split; [by repeat constructor|done]|].
      rewrite !List.filter_app, !length_app.
      change (List.length (List.filter is_request
                [EvRequest tok query; EvLog (LogRequestError i e);
                 EvLog LogWaiting; EvSleep (retry_time self)])) with 1%nat.
      change (List.length (List.filter is_sleep
                [EvRequest tok query; EvLog (LogRequestError i e);
                 EvLog LogWaiting; EvSleep (retry_time self)])) with 1%nat.
      split; [rewrite Hn', Hn; lia|]. split; [lia|].
      destruct o; [lia|]. destruct Ho. lia.
Qed.

(** X2. The retry loop never raises and sends at most [n] requests: when
    it has a response it has sent at least one, when it gives up it has
    sent exactly [n]; the errors lists are as before. *)
Theorem retry_budget n i fid hl0 sid tok w :
  exists o w',
    fetch_retrying E self n i fid hl0 sid tok w = (Ok o, w')
    /\ (n_http w' <= n_http w + n)%nat
    /\ match o with
       | Some _ => (n_http w < n_http w')%nat
       | None => n_http w' = (n_http w + n)%nat
       end
    /\ heap w' = heap w.
Proof.
  destruct (fetch_retrying_shape n i fid hl0 sid tok w)
    as (o & w' & evs & Hf & Hh & _ & _ & _ & Hn & Hle & Ho).
  exists o, w'. split; [done|]. split; [lia|]. split; [|done].
  destruct o; [lia|]. destruct Ho. lia.
Qed.



Lemma review_loop_no_request tok reviews : forall j0 results0,
  keeps n_http (review_loop E reviews tok j0 results0).
Proof.
  induction reviews as [|review rest IH]; intros j0 results0; cbn [review_loop].
  - apply keeps_ret.
  - intros w r w' H.
    destruct (_parse_review E review w) as [[result|e] w1] eqn:Hp.
    + unfold bind at 1, write_row at 1, emit at 1 in H.
      unfold bind at 1, emit at 1 in H. cbn [heap clock n_http trace] in H.
      rewrite (IH _ _ _ _ _ H). cbn [n_http].
      exact (_parse_review_no_request E review _ _ _ Hp).
    + injection H as <- <-. exact (_parse_review_no_request E review _ _ _ Hp).
Qed.

Lemma parse_page_no_request i v : keeps n_http (parse_page E i v).
Proof.
  unfold parse_page. destruct (reviews_soup v) as [reviews|].
  - apply keeps_bind; [apply review_loop_no_request|intros r].
    destruct (snd r); unfold log; repeat keeps_step.
  - unfold log. repeat keeps_step.
Qed.

(** The rows a review loop writes are the records it adds to [results],
    and [j] counts them, also when an exception ends the loop early. *)
Lemma review_loop_results tok reviews : forall j0 results0 w,
  exists new oe w',
    review_loop E reviews tok j0 results0 w
    = (Ok ((j0 + List.length new)%nat, results0 ++ new, oe), w')
    /\ rows_of (trace w') = rows_of (trace w) ++ new.
Proof.
  induction reviews as [|review rest IH]; intros j0 results0 w; cbn [review_loop].
  - exists [], None, w. unfold ret. cbn [List.length].
    by rewrite Nat.add_0_r, !app_nil_r.
  - destruct (_parse_review E review w) as [[result|e] w1] eqn:Hp;
      destruct (_parse_review_quiet E review _ _ _ Hp) as (ev1 & T1 & F1).
    + unfold bind at 1, write_row at 1, emit at 1.
      unfold bind at 1, emit at 1. cbn [heap clock n_http trace].
      match goal with
      | |- context [review_loop E rest tok (S j0) (results0 ++ [?r]) ?w2] =>
          destruct (IH (S j0) (results0 ++ [r]) w2) as (new & oe & w' & Hl & Hr);
          exists (r :: new), oe, w'
      end.
      rewrite Hl. cbn [trace] in Hr. split.
      * rewrite <- app_assoc. cbn [List.length app]. by rewrite Nat.add_succ_r.
      * rewrite Hr, T1, !rows_of_app, (rows_of_quiet _ F1).
        change (rows_of [EvFlush]) with (@nil pydict).
        match goal with
        | |- context [rows_of [EvRow ?r ?x]] =>
            change (rows_of [EvRow r x]) with [r]
        end.
        by rewrite !app_nil_r, <- app_assoc.
    + exists [], (Some e), w1. cbn [List.length].
      rewrite Nat.add_0_r, !app_nil_r. split; [done|].
      by rewrite T1, rows_of_app, (rows_of_quiet _ F1), app_nil_r.
Qed.

Lemma parse_page_results i v w :
  exists new v' w',
    parse_page E i v w = (Ok v', w')
    /\ results v' = results v ++ new
    /\ j v' = (j v + List.length new)%nat
    /\ token v' = token v
    /\ review_count v' = review_count v
    /\ reviews_soup v' = reviews_soup v
    /\ rows_of (trace w') = rows_of (trace w) ++ new.
Proof.
  unfold parse_page. destruct (reviews_soup v) as [reviews|] eqn:Hrs.
  - destruct (review_loop_results (token v) reviews (j v) (results v) w)
      as (new & oe & w1 & Hl & Hr).
    unfold bind at 1. rewrite Hl. cbn [fst snd].
    destruct oe; unfold bind, log, emit, ret; eexists new, _, _;
      (split; [reflexivity|]); cbn [results j token review_count reviews_soup trace];
      repeat split; try done.
    rewrite rows_of_app, Hr. change (rows_of [EvLog _]) with (@nil pydict).
    by rewrite app_nil_r.
  - unfold bind, log, emit, ret. eexists [], v, _. split; [reflexivity|].
    cbn [trace List.length]. rewrite Nat.add_0_r, !app_nil_r, rows_of_app.
    repeat split; try done.
    change (rows_of [EvLog _]) with (@nil pydict). by rewrite app_nil_r.
Qed.


(** The locals after the retry loop returned [o]. *)
Lemma page_iteration_unfold fid hl0 sid i v w o w1 v2 w2 :
  fetch_retrying E self (Z.to_nat (n_retries self)) i fid hl0 sid (token v)
                 (started i v w) = (Ok o, w1) ->
  parse_page E i
    match o with
    | Some (_, rs, rc, tok) => assigned v rs rc tok
    | None => v
    end w1 = (Ok v2, w2) ->
  page_iteration E self fid hl0 sid i v w
  = match review_count v2 with
    | Some rc =>
        if (rc <? 10) || String.eqb (token v2) EmptyString
        then (Ok (true, v2), snd (log (LogReviewLimit (j v2)) w2))
        else (Ok (false, v2), snd (sleep (request_interval self) w2))
    | None => (Raise UnboundLocalError, w2)
    end.
Proof.
  intros Hf Hp. unfold page_iteration.
  unfold bind at 1. unfold log at 1, emit at 1.
  unfold started, log, emit in Hf. cbn [snd] in Hf.
  unfold bind at 1. rewrite Hf.
  assert (Hv : match o with
               | Some (_, rs, rc, tok) =>
                   {| reviews_soup := Some rs; review_count := Some rc;
                      token := tok; j := j v; results := results v |}
               | None => v
               end
               = match o with
                 | Some (_, rs, rc, tok) => assigned v rs rc tok
                 | None => v
                 end).
  { by destruct o as [[[[? ?] ?] ?]|]. }
  rewrite Hv. unfold bind at 1. rewrite Hp. unfold bind at 1, lift.
  destruct (review_count v2) as [rc|]; cbn [bound]; [|done].
  destruct ((rc <? 10) || String.eqb (token v2) EmptyString); reflexivity.
Qed.

Lemma page_iteration_frame fid hl0 sid i v w :
  exists new,
    rows_of (trace (snd (page_iteration E self fid hl0 sid i v w)))
    = rows_of (trace w) ++ new
    /\ (n_http (snd (page_iteration E self fid hl0 sid i v w))
        <= n_http w + Z.to_nat (n_retries self))%nat
    /\ match fst (page_iteration E self fid hl0 sid i v w) with
       | Ok (_, v') =>
           results v' = results v ++ new
           /\ j v' = (j v + List.length new)%nat
       | Raise _ => True
       end.
Proof.
  destruct (fetch_retrying_shape (Z.to_nat (n_retries self)) i fid hl0 sid
              (token v) (started i v w))
    as (o & w1 & evs & Hf & _ & _ & T1 & F1 & N1 & Hle & _).
  assert (Q1 : rows_of evs = []).
  { apply rows_of_quiet. eapply Forall_impl; [exact F1|].
    intros [[]| | | | |]; simpl; try done. }
  unfold started, log, emit in T1, N1. cbn [snd trace n_http] in T1, N1.
  set (v1 := match o with
             | Some (_, rs, rc, tok) => assigned v rs rc tok
             | None => v
             end).
  destruct (parse_page_results i v1 w1)
    as (new & v2 & w2 & Hp & Hres & Hj & _ & _ & _ & Hrows).
  pose proof (parse_page_no_request i v1 _ _ _ Hp) as N2.
  assert (Hres1 : results v1 = results v) by (subst v1; by destruct o as [[[[? ?] ?] ?]|]).
  assert (Hj1 : j v1 = j v) by (subst v1; by destruct o as [[[[? ?] ?] ?]|]).
  rewrite (page_iteration_unfold fid hl0 sid i v w o w1 v2 w2 Hf Hp).
  exists new.
  assert (Hr2 : rows_of (trace w2) = rows_of (trace w) ++ new).
  { rewrite Hrows, T1, !rows_of_app, Q1.
    change (rows_of [EvLog (LogRequest i (j v))]) with (@nil pydict).
    by rewrite !app_nil_r. }
  destruct (review_count v2) as [rc|];
    [destruct ((rc <? 10) || String.eqb (token v2) EmptyString)|];
    unfold log, sleep, emit; cbn [fst snd trace n_http];
    rewrite ?rows_of_app, Hr2;
    try change (rows_of [EvLog (LogReviewLimit (j v2))]) with (@nil pydict);
    try change (rows_of [EvSleep (request_interval self)]) with (@nil pydict);
    rewrite ?app_nil_r; (split; [done|]); (split; [lia|]);
    try done; by rewrite Hres, Hj, Hres1, Hj1.
Qed.



Lemma for_loop_frame fid hl0 sid range : forall last v w,
  exists new,
    rows_of (trace (snd (for_loop E self fid hl0 sid range last v w)))
    = rows_of (trace w) ++ new
    /\ (n_http (snd (for_loop E self fid hl0 sid range last v w))
        <= n_http w + List.length range * Z.to_nat (n_retries self))%nat
    /\ match fst (for_loop E self fid hl0 sid range last v w) with
       | Ok (_, v') =>
           results v' = results v ++ new
           /\ j v' = (j v + List.length new)%nat
       | Raise _ => True
       end.
Proof.
  induction range as [|i rest IH]; intros last v w.
  - exists []. cbn [for_loop]. unfold ret. cbn [fst snd List.length].
    rewrite !app_nil_r. repeat split; try done; lia.
  - destruct (page_iteration_frame fid hl0 sid i v w) as (new1 & R1 & N1 & C1).
    cbn [for_loop]. unfold bind.
    destruct (page_iteration E self fid hl0 sid i v w) as [[[[] v1]|e] w1];
      cbn [fst snd] in *.
    + exists new1. unfold ret. cbn [fst snd List.length]. repeat split; try tauto. lia.
    + destruct C1 as [Hres Hj].
      destruct (IH (Some i) v1 w1) as (new2 & R2 & N2 & C2).
      exists (new1 ++ new2). rewrite R2, R1, <- app_assoc. split; [done|].
      split; [cbn [List.length]; lia|].
      destruct (for_loop E self fid hl0 sid rest (Some i) v1 w1) as [[[last' v2]|e] w2];
        cbn [fst snd] in *; [|done].
      destruct C2 as [Hres2 Hj2].
      rewrite Hres2, Hj2, Hres, Hj, length_app, <- app_assoc. split; [done|lia].
    + exists new1. cbn [List.length]. repeat split; try done. lia.
Qed.

(** X5. A URL without a place name, or with a place name and without a
    feature id, makes [scrape_reviews] raise an [IndexError] before
    anything is requested; in the second case the name has been logged. *)
Theorem unreadable_url_is_fatal_before_any_request url N hl0 sort_by tok w :
  (re_findall re_place_name url = [] ->
   scrape_reviews E self url N hl0 sort_by tok w = (Raise IndexError, w))
  /\ (forall name,
        index (re_findall re_place_name url) 0 = Ok name ->
        re_findall re_feature_id url = [] ->
        scrape_reviews E self url N hl0 sort_by tok w
        = (Raise IndexError, snd (log (LogScraping (unquote_plus E name)) w))).
Proof.
  split.
  - intros H. unfold scrape_reviews, bind at 1, lift at 1. by rewrite H.
  - intros name Hname Hfid. unfold scrape_reviews.
    unfold bind at 1, lift at 1. rewrite Hname.
    unfold bind at 1. unfold log at 1, emit at 1.
    unfold bind at 1, lift at 1, _parse_url_to_feature_id. by rewrite Hfid.
Qed.

(** X6. Asked for no review at all ([n_reviews <= 0]), [scrape_reviews]
    requests no page and ends in an [UnboundLocalError], the loop
    variable of its last message being unbound. *)
Theorem nothing_requested_nothing_fetched url N hl0 sort_by tok w name fid :
  index (re_findall re_place_name url) 0 = Ok name ->
  _parse_url_to_feature_id url = Ok fid ->
  N <= 0 ->
  scrape_reviews E self url N hl0 sort_by tok w
  = (Raise UnboundLocalError, snd (log (LogScraping (unquote_plus E name)) w)).
Proof.
  intros Hname Hfid HN. unfold scrape_reviews.
  unfold bind at 1, lift at 1. rewrite Hname.
  unfold bind at 1. unfold log at 1, emit at 1.
  unfold bind at 1, lift at 1. rewrite Hfid. cbv zeta.
  replace (Z.to_nat (n_requests_of N)) with 0%nat.
  - reflexivity.
  - unfold n_requests_of. symmetry. apply Z2Nat.nonpos.
    assert ((N + 9) / 10 < 1) by (apply Z.div_lt_upper_bound; lia). lia.
Qed.

(** X7. [scrape_reviews] sends at most ceil(n_reviews / 10) times
    [n_retries] requests, however it ends. *)
Theorem request_budget url N hl0 sort_by tok w :
  (n_http (snd (scrape_reviews E self url N hl0 sort_by tok w))
   <= n_http w + Z.to_nat (n_requests_of N) * Z.to_nat (n_retries self))%nat.
Proof.
  unfold scrape_reviews. unfold bind at 1, lift at 1.
  destruct (index (re_findall re_place_name url) 0) as [name|e]; cbn [snd]; [|lia].
  unfold bind at 1. unfold log at 1, emit at 1.
  unfold bind at 1, lift at 1.
  destruct (_parse_url_to_feature_id url) as [fid|e]; cbn [snd n_http]; [|lia].
  cbv zeta. unfold bind at 1.
  match goal with
  | |- context [for_loop E self fid hl0 ?sid ?range None ?v ?w0] =>
      destruct (for_loop_frame fid hl0 sid range None v w0) as (new & _ & Hn & _);
      destruct (for_loop E self fid hl0 sid range None v w0) as [[r|e] w1]
  end; cbn [fst snd n_http] in *; rewrite length_seq in Hn.
  - unfold bind, lift, log, emit, ret.
    destruct (bound (fst r)); cbn [snd n_http]; lia.
  - lia.
Qed.


End Fetch.

(** ** What [_parse_review] returns and touches *)

Lemma _handle_review_exception_result E result review name e w r w' :
  _handle_review_exception E result review name e w = (Ok r, w') -> r = result.
Proof.
  unfold _handle_review_exception, bind, log, emit, lift, tick, ret.
  destruct (dict_item "errors" result) as [v|?]; [|discriminate].
  cbn [heap clock n_http trace].
  match goal with
  | |- context [list_append v ?x ?w0] => destruct (list_append v x w0) as [[[]|?] ?]
  end; [|discriminate].
  by intros [= <- <-].
Qed.

Lemma try_block_result E review name body result w r w' :
  try_block E review name body result w = (Ok r, w') ->
  r = apply_assigns (fst body) result.
Proof.
  unfold try_block. destruct (snd body).
  - by intros [= <- <-].
  - apply _handle_review_exception_result.
Qed.

Lemma dict_set_keys k v d :
  In k (map fst d) -> map fst (dict_set k v d) = map fst d.
Proof.
  induction d as [|[k' v'] d IH]; intros Hin; [done|].
  cbn [dict_set]. destruct (String.eqb k k') eqn:Ek.
  - apply String.eqb_eq in Ek as ->. done.
  - cbn [map fst]. f_equal. apply IH. destruct Hin as [Hin|Hin]; [|done].
    simpl in Hin. subst. by rewrite String.eqb_refl in Ek.
Qed.

Lemma apply_assigns_keys l : forall d,
  (forall kv, In kv l -> In (fst kv) (map fst d)) ->
  map fst (apply_assigns l d) = map fst d.
Proof.
  induction l as [|[k v] l IH]; intros d Hl; [done|].
  unfold apply_assigns in *. cbn [fold_left fst snd].
  rewrite IH.
  - apply dict_set_keys. apply (Hl (k, v)). by left.
  - intros kv Hin. rewrite dict_set_keys; [|apply (Hl (k, v)); by left].
    apply Hl. by right.
Qed.

Lemma parsed_record_keys review ts :
  map fst (parsed_record review ts) = map fst review_default_result.
Proof.
  unfold parsed_record.
  assert (Ha : map fst (apply_assigns (assignments review) review_default_result)
               = map fst review_default_result).
  { apply apply_assigns_keys. intros kv Hin.
    assert (Hk : In (fst kv) block_keys).
    { apply (assignments_keys review). apply in_map_iff. by exists kv. }
    simpl in Hk. simpl.
    repeat (destruct Hk as [<-|Hk]; [tauto|]). done. }
  rewrite dict_set_keys; [done|]. rewrite Ha. simpl. tauto.
Qed.

(** X9. With its errors list in place, [_parse_review] returns a record
    with the columns of [review_default_result], in their order, whatever
    the review node holds; stamping the token adds no column. *)
Theorem record_columns_are_fixed E review tok w errs :
  heap w !! errors_loc = Some errs ->
  exists r w',
    _parse_review E review w = (Ok r, w')
    /\ map fst r = map fst review_default_result
    /\ map fst (dict_set "token" (VStr tok) r) = map fst review_default_result.
Proof.
  intros Hh. destruct (_parse_review_spec E review w errs Hh) as (w' & H & _).
  eexists _, w'. split; [exact H|].
  rewrite dict_set_keys; rewrite parsed_record_keys; [done|]. simpl. tauto.
Qed.


Lemma _handle_review_exception_heap E result review name e l :
  dict_get "errors" result = Some (VList errors_loc) ->
  l <> errors_loc ->
  keeps (fun w => heap w !! l) (_handle_review_exception E result review name e).
Proof.
  intros Hd Hl w r w'.
  unfold _handle_review_exception, bind, log, emit, lift, dict_item, tick,
    list_append, ret.
  rewrite Hd. cbn [heap clock n_http trace].
  destruct (heap w !! errors_loc) as [xs|]; intros [= <- <-]; cbn [heap]; [|done].
  by apply lookup_insert_ne.
Qed.

Lemma run_blocks_heap E review l bs : forall result,
  dict_get "errors" result = Some (VList errors_loc) ->
  Forall (fun nb => writes block_keys (snd nb)) bs ->
  l <> errors_loc ->
  keeps (fun w => heap w !! l) (run_blocks E review bs result).
Proof.
  induction bs as [|nb bs IH]; intros result Hd Hw Hl; cbn [run_blocks].
  - apply keeps_ret.
  - apply Forall_cons in Hw as [Hnb Hw].
    assert (Hd' : dict_get "errors" (apply_assigns (fst (snd nb)) result)
                  = Some (VList errors_loc)).
    { rewrite dict_get_apply_assigns; [done|].
      intros Hin. apply in_map_iff in Hin as (kv & Hk & Hin).
      apply Hnb in Hin. rewrite Hk in Hin. simpl in Hin.
      repeat (destruct Hin as [Hin|Hin]; [discriminate Hin|]). done. }
    intros w r w' H. unfold bind in H.
    destruct (try_block E review (fst nb) (snd nb) result w) as [[r1|e] w1] eqn:H1.
    + pose proof (try_block_result _ _ _ _ _ _ _ _ H1) as ->.
      rewrite (IH _ Hd' Hw Hl _ _ _ H).
      unfold try_block in H1. destruct (snd (snd nb)).
      * by inversion H1.
      * exact (_handle_review_exception_heap _ _ _ _ _ _ Hd' Hl _ _ _ H1).
    + injection H as <- <-.
      unfold try_block in H1. destruct (snd (snd nb)); [discriminate H1|].
      exact (_handle_review_exception_heap _ _ _ _ _ _ Hd' Hl _ _ _ H1).
Qed.

(** X11. [_parse_review] sends no request and writes no row, and of the
    lists in the heap it touches the errors list only. *)
Theorem parsing_touches_only_the_errors_list E review w :
  let w' := snd (_parse_review E review w) in
  n_http w' = n_http w
  /\ rows_of (trace w') = rows_of (trace w)
  /\ forall l, l <> errors_loc -> heap w' !! l = heap w !! l.
Proof.
  destruct (_parse_review E review w) as [r w'] eqn:H. cbn [snd].
  split; [exact (_parse_review_no_request E review _ _ _ H)|]. split.
  - destruct (_parse_review_quiet E review _ _ _ H) as (evs & T & F).
    by rewrite T, rows_of_app, (rows_of_quiet _ F), app_nil_r.
  - intros l Hl. rewrite _parse_review_unfold in H. unfold bind at 1 in H.
    destruct (run_blocks E review (bodies review) (dict_copy review_default_result) w)
      as [[r1|e] w1] eqn:H1.
    + unfold bind, tick, ret in H. injection H as <- <-. cbn [heap].
      exact (run_blocks_heap E review l (bodies review)
               (dict_copy review_default_result) eq_refl
               (bodies_write review) Hl _ _ _ H1).
    + injection H as <- <-.
      exact (run_blocks_heap E review l (bodies review)
               (dict_copy review_default_result) eq_refl
               (bodies_write review) Hl _ _ _ H1).
Qed.

(** ** Substitution of single characters, and stripping *)

Lemma chars_app s t : chars (s +:+ t) = chars s ++ chars t.
Proof. induction s as [|c s IH]; [done|]. simpl. by rewrite IH. Qed.

Lemma chars_text_of l : chars (text_of l) = l.
Proof. apply list_ascii_of_string_of_list_ascii. Qed.

Lemma text_of_chars s : text_of (chars s) = s.
Proof. apply string_of_list_ascii_of_string. Qed.

Lemma text_of_app l1 l2 : text_of (l1 ++ l2) = text_of l1 +:+ text_of l2.
Proof. induction l1 as [|c l1 IH]; [done|]. simpl. by rewrite IH. Qed.

Lemma match_at_cls p b c s :
  match_at (Cls p) b (String c s)
  = if p c then Some (String c EmptyString) else None.
Proof.
  unfold match_at. cbn [mt]. destruct (p c); [|done].
  cbn [List.length].
  replace (S (List.length b) - List.length b)%nat with 1%nat by lia.
  reflexivity.
Qed.

Lemma sub_cls p repl s : forall b,
  sub_from (Cls p) repl b s 0 = replace_class p repl s.
Proof.
  induction s as [|c s IH]; intros b; [done|].
  cbn [sub_from replace_class]. rewrite match_at_cls.
  destruct (p c); cbn [String.length]; by rewrite IH.
Qed.



Lemma replace_class_Forall (P : ascii -> Prop) p repl s :
  Forall P (chars repl) ->
  Forall (fun c => p c = false -> P c) (chars s) ->
  Forall P (chars (replace_class p repl s)).
Proof.
  intros Hrepl. induction s as [|c s IH]; intros Hs; [by constructor|].
  cbn [replace_class]. rewrite chars_app. apply Forall_app.
  apply Forall_cons in Hs as [Hc Hs]. split; [|by apply IH].
  destruct (p c) eqn:Ec; [done|]. by repeat constructor; auto.
Qed.





Lemma srev_srev s : srev (srev s) = s.
Proof. unfold srev. by rewrite chars_text_of, rev_involutive, text_of_chars. Qed.


Lemma srev_snoc s c : srev (s +:+ String c EmptyString) = String c (srev s).
Proof.
  unfold srev. rewrite chars_app. cbn [chars list_ascii_of_string].
  by rewrite rev_app_distr.
Qed.

Lemma rstrip_srev s : rstrip s = srev (lstrip (srev s)).
Proof. reflexivity. Qed.





(** X13. [_handle_review_exception] does not raise and gives the record
    back as it was: it appends one entry, free of quotes, to the errors
    list, reads the clock once, logs one message and writes one file. *)
Theorem failure_is_recorded_once E result review name e w errs :
  heap w !! errors_loc = Some errs ->
  dict_get "errors" result = Some (VList errors_loc) ->
  exists entry tb path,
    _handle_review_exception E result review name e w
    = (Ok result,
       {| heap := <[errors_loc := errs ++ [entry]]> (heap w);
          clock := S (clock w);
          n_http := n_http w;
          trace := trace w ++ [EvLog (LogReviewError tb);
                               EvErrorFile path review] |})
    /\ Forall (fun c => is_quote c = false) (chars entry).
Proof.
  intros Hh Hd.
  unfold _handle_review_exception, bind, log, emit, lift, dict_item, tick,
    list_append, ret.
  rewrite Hd. cbn [heap trace clock n_http]. rewrite Hh.
  cbn [heap trace clock n_http]. eexists _, _, _.
  split; [by rewrite <- app_assoc|].
  unfold re_sub, re_quote_class. rewrite sub_cls.
  apply replace_class_Forall; [by repeat constructor|].
  apply Forall_forall. by intros c _ Hc.
Qed.

Lemma find_from_absent p s : forall i,
  absent_in p s 0 (S (String.length s)) = true -> find_from p s i = -1.
Proof.
  induction s as [|c s IH]; intros i H; unfold absent_in in H;
    cbn [String.length seq forallb] in H; apply andb_true_iff in H as [H0 H];
    cbn [occurs_atb] in H0; apply negb_true_iff in H0;
    cbn [find_from]; rewrite H0; [done|].
  apply IH. rewrite <- (absent_in_cons p c s 0). exact H.
Qed.

Lemma length_substring_le s : forall n m,
  (String.length (substring n m s) <= m)%nat.
Proof.
  induction s as [|c s IH]; intros [|n] [|m]; simpl; try lia.
  - specialize (IH 0%nat m). lia.
  - apply (IH n 0%nat).
  - apply (IH n (S m)).
Qed.

(** X14. A response that ends its last [</div>] at [b] and has no
    [<div ] in it is not refused: [_cut_response] wraps at most one
    character of it. *)
Theorem cut_without_opening_tag (text : string) (b : nat) :
  absent_in "<div " text 0 (S (String.length text)) = true ->
  last_atb "</div>" text b = true ->
  exists fragment,
    _cut_response text = Ok ("<html><body>" +:+ fragment +:+ "</body></html>")
    /\ (String.length fragment <= 1)%nat.
Proof.
  intros Ha Hb. unfold _cut_response, re_search_reverse, str_find.
  rewrite (rsearch_from_last _ _ b) by done.
  rewrite find_from_absent by done. cbn [deref rbind snd].
  eexists. split; [reflexivity|].
  unfold last_atb in Hb. apply andb_true_iff in Hb as [Hb _].
  apply occurs_atb_bound in Hb. cbn [String.length] in Hb.
  unfold py_slice, slice_index, len. cbn [String.length].
  destruct (Z.ltb_spec (-1) 0); [|lia].
  destruct (Z.ltb_spec (0 + Z.of_nat b + Z.of_nat 6) 0); [lia|].
  match goal with |- context [if ?c then _ else _] => destruct c end; [|simpl; lia].
  etransitivity; [apply length_substring_le|]. lia.
Qed.

(** ** What the matcher can return *)

Lemma strip_prefix_chars p : forall s s',
  strip_prefix p s = Some s' -> chars s = chars p ++ chars s'.
Proof.
  induction p as [|a p IH]; intros s s' H.
  - cbn in H. by injection H as ->.
  - destruct s as [|b s]; [done|]. cbn [strip_prefix] in H.
    destruct (Ascii.eqb a b) eqn:E; [|done].
    apply Ascii.eqb_eq in E as ->. cbn. f_equal. by apply IH.
Qed.

Section Sound.
Context {R : Type}.

Lemma many_sound p : forall s b (k : list ascii -> string -> option R) x,
  many p b s k = Some x ->
  exists m s',
    chars s = m ++ chars s' /\ forallb p m = true /\ k (rev m ++ b) s' = Some x.
Proof.
  induction s as [|c s IH]; intros b k x H; cbn [many] in H.
  - by exists [], EmptyString.
  - destruct (p c) eqn:Ec; [|by exists [], (String c s)].
    destruct (many p (c :: b) s k) as [y|] eqn:Hm.
    + injection H as ->. apply IH in Hm as (m & s' & Hs & Hp & Hk).
      exists (c :: m), s'.
      split; [change (chars (String c s)) with (c :: chars s); by rewrite Hs|].
      split; [cbn [forallb]; by rewrite Ec, Hp|].
      cbn [rev]. by rewrite <- app_assoc.
    + by exists [], (String c s).
Qed.

Lemma few_sound p : forall s b (k : list ascii -> string -> option R) x,
  few p b s k = Some x ->
  exists m s',
    chars s = m ++ chars s' /\ forallb p m = true /\ k (rev m ++ b) s' = Some x.
Proof.
  induction s as [|c s IH]; intros b k x H; cbn [few] in H.
  - destruct (k b EmptyString) eqn:Hk; [|done]. injection H as ->.
    by exists [], EmptyString.
  - destruct (k b (String c s)) as [y|] eqn:Hk.
    + injection H as ->. by exists [], (String c s).
    + destruct (p c) eqn:Ec; [|done].
      apply IH in H as (m & s' & Hs & Hp & Hk').
      exists (c :: m), s'.
      split; [change (chars (String c s)) with (c :: chars s); by rewrite Hs|].
      split; [cbn [forallb]; by rewrite Ec, Hp|].
      cbn [rev]. by rewrite <- app_assoc.
Qed.
End Sound.

Lemma mt_sound r : forall R b s (k : list ascii -> string -> option R) x,
  mt r b s k = Some x ->
  exists m s',
    chars s = m ++ chars s' /\ lang r m /\ k (rev m ++ b) s' = Some x.
Proof.
  induction r as [l|p|r1 IH1 r2 IH2|r1 IH1 r2 IH2|p|p|p|r1 IH1|l];
    intros R b s k x H; cbn [mt] in H.
  - destruct (strip_prefix l s) as [s'|] eqn:Hs; [|done].
    exists (chars l), s'. split; [by apply strip_prefix_chars|].
    split; [done|]. by rewrite <- rev_append_rev.
  - destruct s as [|c s]; [done|]. destruct (p c) eqn:Ec; [|done].
    exists [c], s. repeat split; try done. by exists c.
  - apply IH1 in H as (m1 & s1 & Hs1 & L1 & H).
    apply IH2 in H as (m2 & s2 & Hs2 & L2 & H).
    exists (m1 ++ m2), s2. rewrite Hs1, Hs2, <- app_assoc. split; [done|].
    split; [by exists m1, m2|]. by rewrite rev_app_distr, <- app_assoc.
  - destruct (mt r1 b s k) as [y|] eqn:H1.
    + injection H as ->. apply IH1 in H1 as (m & s' & ? & ? & ?).
      exists m, s'. repeat split; try done. by left.
    + apply IH2 in H as (m & s' & ? & ? & ?).
      exists m, s'. repeat split; try done. by right.
  - by apply many_sound.
  - destruct s as [|c s]; [done|]. destruct (p c) eqn:Ec; [|done].
    apply many_sound in H as (m & s' & Hs & Hp & Hk).
    exists (c :: m), s'.
    split; [change (chars (String c s)) with (c :: chars s); by rewrite Hs|].
    split; [split; [done|]; cbn [forallb]; by rewrite Ec, Hp|].
    cbn [rev]. by rewrite <- app_assoc.
  - by apply few_sound.
  - destruct (mt r1 b s (fun _ _ => Some ())); [|done].
    by exists [], s.
  - destruct (starts_with (rev (chars l)) b); [|done].
    by exists [], s.
Qed.

(** A match at the cursor is text of the pattern and a prefix of what
    lies ahead. *)
Lemma match_at_sound r b s t :
  match_at r b s = Some t ->
  lang r (chars t) /\ exists s', s = t +:+ s'.
Proof.
  intros H. unfold match_at in H.
  apply mt_sound in H as (m & s' & Hs & Hl & Ht).
  injection Ht as <-.
  rewrite length_app, length_rev.
  replace (List.length m + List.length b - List.length b)%nat
    with (List.length (rev m)) by (rewrite length_rev; lia).
  rewrite firstn_app, Nat.sub_diag, firstn_all. cbn [firstn].
  rewrite app_nil_r, rev_involutive, chars_text_of. split; [done|].
  exists s'. rewrite <- (text_of_chars s), Hs, text_of_app.
  by rewrite text_of_chars.
Qed.

Lemma occurs_in_cons t c s : occurs_in t s -> occurs_in t (String c s).
Proof. intros (pre & post & ->). by exists (String c pre), post. Qed.

Lemma findall_from_sound r s : forall b skip t,
  In t (findall_from r b s skip) -> lang r (chars t) /\ occurs_in t s.
Proof.
  induction s as [|c s IH]; intros b skip t H; destruct skip as [|n];
    cbn [findall_from] in H; try done.
  - destruct (match_at r b EmptyString) as [m|] eqn:Hm; [|done].
    destruct H as [<-|[]]. apply match_at_sound in Hm as [Hl [s' Hs]].
    split; [done|]. by exists EmptyString, s'.
  - destruct (match_at r b (String c s)) as [m|] eqn:Hm.
    + destruct H as [<-|H].
      * apply match_at_sound in Hm as [Hl [s' Hs]].
        split; [done|]. by exists EmptyString, s'.
      * apply IH in H as [Hl Ho]. split; [done|]. by apply occurs_in_cons.
    + apply IH in H as [Hl Ho]. split; [done|]. by apply occurs_in_cons.
  - apply IH in H as [Hl Ho]. split; [done|]. by apply occurs_in_cons.
Qed.

Lemma re_findall_sound r s t :
  In t (re_findall r s) -> lang r (chars t) /\ occurs_in t s.
Proof. apply findall_from_sound. Qed.

(** ** The feature id and the rating numbers *)

Lemma text_of_cons c l : text_of (c :: l) = String c (text_of l).
Proof. reflexivity. Qed.



Lemma digit_not_space c : is_digit c = true -> py_isspace c = false.
Proof.
  unfold is_digit, py_isspace, is_space. generalize (code c). intros n H.
  apply andb_true_iff in H as [H1 H2].
  apply Nat.leb_le in H1. apply Nat.leb_le in H2.
  repeat match goal with
         | |- context [(?a =? ?b)%nat] => destruct (Nat.eqb_spec a b)
         | |- context [(?a <=? ?b)%nat] => destruct (Nat.leb_spec a b)
         end; simpl; try done; lia.
Qed.

Lemma signed_digit c s :
  is_digit c = true -> signed (String c s) = (false, String c s).
Proof.
  destruct c as [[] [] [] [] [] [] [] []]; intros H; try discriminate H;
    reflexivity.
Qed.

Lemma read_digits_all ds : forall acc n rest,
  forallb is_digit (chars ds) = true ->
  match rest with
  | String c _ => is_digit c = false
  | EmptyString => True
  end ->
  exists acc', read_digits acc n (ds +:+ rest)
               = (acc', (n + String.length ds)%nat, rest).
Proof.
  induction ds as [|c ds IH]; intros acc n rest Hd Hr.
  - exists acc. change (EmptyString +:+ rest) with rest.
    cbn [String.length]. rewrite Nat.add_0_r.
    destruct rest as [|c r]; [done|]. cbn [read_digits]. by rewrite Hr.
  - change (chars (String c ds)) with (c :: chars ds) in Hd.
    cbn [forallb] in Hd. apply andb_true_iff in Hd as [Hc Hd].
    change (String c ds +:+ rest) with (String c (ds +:+ rest)).
    cbn [read_digits]. rewrite Hc.
    destruct (IH (10 * acc + (Z.of_nat (code c) - 48)) (S n) rest Hd Hr)
      as [acc' ->].
    exists acc'. cbn [String.length]. do 2 f_equal. lia.
Qed.

Lemma py_strip_unspaced s c :
  match s with
  | String a _ => py_isspace a = false
  | EmptyString => True
  end ->
  py_isspace c = false ->
  py_strip (s +:+ String c EmptyString) = s +:+ String c EmptyString.
Proof.
  intros Hs Hc. unfold py_strip.
  assert (Hl : lstrip (s +:+ String c EmptyString) = s +:+ String c EmptyString).
  { destruct s as [|a s].
    - change (EmptyString +:+ String c EmptyString) with (String c EmptyString).
      cbn [lstrip]. by rewrite Hc.
    - change (String a s +:+ String c EmptyString)
        with (String a (s +:+ String c EmptyString)).
      cbn [lstrip]. by rewrite Hs. }
  rewrite Hl, rstrip_srev, srev_snoc. cbn [lstrip]. rewrite Hc.
  by rewrite <- srev_snoc, srev_srev.
Qed.

Lemma lang_decimal m : lang re_decimal m -> is_decimal (text_of m).
Proof.
  intros (m1 & m2 & -> & [Hne Hd1] & m3 & m4 & -> & (c & -> & Hc) & Hd4).
  exists (text_of m1), (text_of m4).
  apply Ascii.eqb_eq in Hc as <-.
  rewrite !chars_text_of, !text_of_app. repeat split; try done.
  destruct m1; [done|discriminate].
Qed.

Lemma string_snoc s :
  s <> EmptyString -> exists s0 c, s = s0 +:+ String c EmptyString.
Proof.
  induction s as [|a s IH]; intros Hs; [done|].
  destruct s as [|b s].
  - by exists EmptyString, a.
  - destruct IH as (s0 & c & ->); [done|]. by exists (String a s0), c.
Qed.

Lemma string_app_nil s : s +:+ EmptyString = s.
Proof.
  induction s as [|c s IH]; [done|].
  change (String c s +:+ EmptyString) with (String c (s +:+ EmptyString)).
  by rewrite IH.
Qed.

Lemma string_app_assoc s t u : (s +:+ t) +:+ u = s +:+ (t +:+ u).
Proof.
  induction s as [|c s IH]; [done|].
  change ((String c s +:+ t) +:+ u) with (String c ((s +:+ t) +:+ u)).
  by rewrite IH.
Qed.

Lemma py_float_decimal t : is_decimal t -> exists q, py_float t = Ok q.
Proof.
  intros (whole & fraction & -> & Hne & Hw & Hf).
  destruct whole as [|c0 whole]; [done|].
  change (chars (String c0 whole)) with (c0 :: chars whole) in Hw.
  cbn [forallb] in Hw. apply andb_true_iff in Hw as [Hc0 Hw].
  assert (Hstrip : py_strip (String c0 whole +:+ "." +:+ fraction)
                   = String c0 whole +:+ "." +:+ fraction).
  { destruct fraction as [|f0 fraction'] eqn:Ef.
    - apply py_strip_unspaced; [by apply digit_not_space|done].
    - destruct (string_snoc (String f0 fraction')) as (s0 & c & Hs); [done|].
      rewrite Hs, <- !string_app_assoc.
      apply py_strip_unspaced; [by apply digit_not_space|].
      apply digit_not_space. rewrite Hs, chars_app, forallb_app in Hf.
      apply andb_true_iff in Hf as [_ Hf]. cbn in Hf.
      by apply andb_true_iff in Hf as [Hf _]. }
  unfold py_float. rewrite Hstrip.
  change (String c0 whole +:+ "." +:+ fraction)
    with (String c0 (whole +:+ String "." fraction)).
  rewrite signed_digit by done.
  cbn [read_digits]. rewrite Hc0.
  destruct (read_digits_all whole (10 * 0 + (Z.of_nat (code c0) - 48)) 1
              (String "." fraction) Hw eq_refl) as [ip ->].
  destruct (read_digits_all fraction ip 0 EmptyString Hf I) as [num Hn].
  rewrite string_app_nil in Hn. cbn match. rewrite Hn.
  cbn [Nat.add]. by eexists.
Qed.

Lemma rating_numbers_decimal (label t : string) :
  In t (rating_numbers label) ->
  is_decimal t /\ exists q, py_float t = Ok q.
Proof.
  intros H. unfold rating_numbers in H.
  apply re_findall_sound in H as [Hl _].
  apply lang_decimal in Hl. rewrite text_of_chars in Hl.
  split; [done|]. by apply py_float_decimal.
Qed.

(** X16. Every text the rating pattern finds in a label is a decimal
    number with a point, which [float] reads without raising. *)
Theorem rating_numbers_are_numbers (label t : string) :
  In t (rating_numbers label) ->
  is_decimal t /\ exists q, py_float t = Ok q.
Proof. apply rating_numbers_decimal. Qed.

(** ** How a block can fail *)

Lemma index_In {A} (l : list A) i a : index l i = Ok a -> In a l.
Proof.
  unfold index. destruct (nth_error l i) eqn:H; [|done].
  intros [= <-]. by apply nth_error_In in H.
Qed.

Ltac wsimpl := cbn [as_str w_lift w_bind w_ret assign fst snd rbind deref].
Tactic Notation "wsimpl" "in" hyp(H) :=
  cbn [as_str w_lift w_bind w_ret assign fst snd rbind deref] in H.

Lemma rating_of_label_failure label e :
  snd (rating_of_label label) = Raise e ->
  e = TypeError \/ e = IndexError.
Proof.
  unfold rating_of_label. destruct label as [s|]; wsimpl;
    [|intros [= <-]; by left].
  destruct (index (rating_numbers s) 0) as [x|e0] eqn:H0; wsimpl.
  - apply index_In in H0.
    destruct (rating_numbers_decimal _ _ H0) as [_ [q ->]]. wsimpl.
    destruct (index (rating_numbers s) 1) as [y|e1] eqn:H1; wsimpl.
    + apply index_In in H1.
      destruct (rating_numbers_decimal _ _ H1) as [_ [q' ->]]. wsimpl. done.
    + unfold index in H1. destruct (nth_error _ 1); [done|].
      injection H1 as <-. intros [= <-]. by right.
  - unfold index in H0. destruct (nth_error _ 0); [done|].
    injection H0 as <-. intros [= <-]. by right.
Qed.

Lemma failures_from_bodies review (P : string * exn -> Prop) :
  (forall nb e, In nb (bodies review) -> snd (snd nb) = Raise e -> P (fst nb, e)) ->
  Forall P (failures review).
Proof.
  unfold failures. intros H.
  induction (bodies review) as [|nb bs IH]; [by constructor|].
  assert (IH' : Forall P
            (omap (fun nb0 : string * W unit =>
                     match snd (snd nb0) with
                     | Ok _ => None
                     | Raise e => Some (fst nb0, e)
                     end) bs)).
  { apply IH. intros nb' e' Hin. apply H. by right. }
  specialize (H nb). destruct nb as [name [l [[]|e]]]; simpl; [done|].
  constructor; [|done]. apply (H e); [by left|done].
Qed.

(** X17. When the review node is there, only the [rating],
    [relative_date], [user_name], [review_id] and [likes] blocks of
    [_parse_review] can fail, and only in the ways of
    [possible_failure]; the other five blocks never fail. *)
Theorem only_required_fields_fail (r : node) :
  Forall possible_failure (failures (Some r)).
Proof.
  apply failures_from_bodies. intros nb e Hin He. unfold possible_failure.
  cbn [fst snd]. unfold bodies in Hin. cbn [In] in Hin.
  repeat (destruct Hin as [<-|Hin]); try done; cbn [fst snd] in *.
  - (* text *)
    unfold text_body in He. wsimpl in He.
    destruct (find_class "review-full-text" r); [done|].
    by destruct (find_with_attr "data-expandable-section" r).
  - (* rating *)
    left. split; [done|]. unfold rating_body in He. wsimpl in He.
    destruct (find_class "Fam1ne EBe2gf" r) as [n|]; wsimpl in He.
    + apply rating_of_label_failure in He. tauto.
    + injection He as <-. tauto.
  - (* other_ratings *)
    unfold other_ratings_body in He. wsimpl in He.
    by destruct (find_class "k8MTF" r).
  - (* relative_date *)
    right. left. split; [done|]. unfold relative_date_body in He. wsimpl in He.
    destruct (find_class "dehysf lTi8oc" r); wsimpl in He; [done|by injection He].
  - (* user_name *)
    do 2 right. left. split; [done|]. unfold user_name_body in He. wsimpl in He.
    destruct (find_class "TSUbDb" r); wsimpl in He; [done|by injection He].
  - (* user_data *)
    unfold user_data_body in He. wsimpl in He.
    destruct (find_class "Msppse" r) as [u|]; wsimpl in He; [|done].
    destruct (re_findall re_user_reviews (get_text u));
      destruct (re_findall re_user_photos (get_text u)); done.
  - (* review_id *)
    do 3 right. left. split; [done|]. unfold review_id_body in He. wsimpl in He.
    destruct (find_class "RvU3D" r) as [n|]; wsimpl in He;
      [|injection He as <-; tauto].
    destruct (get_attr "href" n) as [href|]; wsimpl in He;
      [|injection He as <-; tauto].
    unfold index in He. destruct (nth_error _ 0); wsimpl in He; [done|].
    injection He as <-. tauto.
  - (* likes *)
    do 4 right. split; [done|]. unfold likes_body in He. wsimpl in He.
    destruct (find_attr "jsname" "CMh1ye" r) as [n|]; wsimpl in He; [|done].
    unfold py_int in He. destruct (signed _) as [neg body].
    destruct (digits_value 0 false body); wsimpl in He; [done|by injection He].
  - (* response *)
    unfold response_body in He. wsimpl in He.
    destruct (find_class "d6SCIc" r); destruct (find_class "pi8uOe" r); done.
  - (* trip_type_travel_group *)
    unfold trip_body in He. wsimpl in He.
    by destruct (find_class "PV7e7" r).
Qed.

Section Done.
Context (E : Env) (self : scraper).

(** X20. When [scrape_reviews] returns, its last message counts as
    parsed exactly the records it returns. *)
Theorem done_message_counts_the_records url N hl0 sort_by tok w :
  match fst (scrape_reviews E self url N hl0 sort_by tok w) with
  | Ok records =>
      exists n_pages,
        last (trace (snd (scrape_reviews E self url N hl0 sort_by tok w)))
        = Some (EvLog (LogDone n_pages (List.length records)))
  | Raise _ => True
  end.
Proof.
  destruct (scrape_reviews E self url N hl0 sort_by tok w) as [[records|e] w']
    eqn:H; cbn [fst snd]; [|done].
  unfold scrape_reviews in H. unfold bind at 1, lift at 1 in H.
  destruct (index (re_findall re_place_name url) 0) as [name|e]; [|discriminate H].
  unfold bind at 1 in H. unfold log at 1, emit at 1 in H.
  unfold bind at 1, lift at 1 in H.
  destruct (_parse_url_to_feature_id url) as [fid|e]; [|discriminate H].
  cbv zeta in H. unfold bind at 1 in H.
  match type of H with
  | context [for_loop E self fid hl0 ?sid ?range None ?v ?w0] =>
      destruct (for_loop_frame E self fid hl0 sid range None v w0) as (new & _ & _ & Hc);
      destruct (for_loop E self fid hl0 sid range None v w0) as [[[last' v']|e] w1]
  end; cbn [fst snd trace results j] in *; [|discriminate H].
  unfold bind, lift, log, emit, ret in H.
  destruct last' as [i|]; cbn [bound fst snd] in H; [|discriminate H].
  injection H as <- <-. cbn [trace].
  destruct Hc as [-> ->]. cbn [app]. eexists. by rewrite last_snoc.
Qed.

End Done.

(** ** The place metadata *)

Lemma place_bodies_shape response :
  Forall (fun nb => one_assignment (fst nb) (snd nb)) (place_bodies response).
Proof.
  unfold place_bodies, one_assignment.
  repeat first [apply Forall_nil_2 | apply Forall_cons_2]; cbn [fst snd].
  - unfold place_name_body. destruct (find_class "P5Bobd" response); wsimpl; eauto.
  - unfold address_body. destruct (find_class "T6pBCe" response); wsimpl; eauto.
  - unfold overall_rating_body.
    destruct (find_class "Aq14fc" response) as [n|]; wsimpl; [|done].
    destruct (overall_rating_of (get_text n)); wsimpl; eauto.
  - unfold n_reviews_body.
    destruct (find_class "z5jxId" response) as [n|]; wsimpl; [|done].
    cbv zeta. destruct (py_int _); wsimpl; eauto.
  - unfold topics_body.
    destruct (find_name "localreviews-place-topics" response); wsimpl; eauto.
Qed.

Lemma _parse_place_spec E response pw :
  _parse_place E response pw
  = (Ok (place_record response (now_str E (clock (fst pw)))),
     (snd (tick (fst pw)),
      snd pw ++ map (fun r => (List.length (trace (fst pw)), r))
                    (place_messages response))).
Proof.
  destruct pw as [w pl].
  unfold _parse_place, place_record, place_messages, place_failures, place_bodies.
  generalize (place_name_body response) (address_body response)
    (overall_rating_body response) (n_reviews_body response) (topics_body response).
  intros [l1 r1] [l2 r2] [l3 r3] [l4 r4] [l5 r5].
  cbn [flat_map fst snd omap]. rewrite app_nil_r, !apply_assigns_app.
  unfold dict_copy, try_place_block, p_bind, p_ret, place_logged, shared, tick.
  cbn [fst snd].
  destruct r1 as [[]|e1], r2 as [[]|e2], r3 as [[]|e3], r4 as [[]|e4],
    r5 as [[]|e5];
    cbn [fst snd omap flat_map map app option_bind mbind];
    rewrite <- ?app_assoc; cbn [app]; rewrite ?app_nil_r; reflexivity.
Qed.

Lemma place_record_fields response ts :
  map fst (place_record response ts) = map fst metadata_default
  /\ forall field body,
       In (field, body) (place_bodies response) ->
       match snd body with
       | Raise _ => dict_get field (place_record response ts) = Some VNone
       | Ok _ => exists v, fst body = [(field, v)]
                           /\ dict_get field (place_record response ts) = Some v
       end.
Proof.
  pose proof (place_bodies_shape response) as Hs.
  unfold place_record. unfold place_bodies in *. revert Hs.
  generalize (place_name_body response) (address_body response)
    (overall_rating_body response) (n_reviews_body response)
    (topics_body response).
  intros [l1 r1] [l2 r2] [l3 r3] [l4 r4] [l5 r5] Hs.
  unfold one_assignment in Hs.
  apply Forall_cons in Hs as [H1 Hs]. apply Forall_cons in Hs as [H2 Hs].
  apply Forall_cons in Hs as [H3 Hs]. apply Forall_cons in Hs as [H4 Hs].
  apply Forall_cons in Hs as [H5 _]. cbn [fst snd] in *.
  assert (Hl : forall (r : result unit) (f : string) (l : list (string * value)),
             match r with
             | Ok _ => exists v, l = [(f, v)]
             | Raise _ => l = []
             end -> l = [] \/ exists v : value, l = [(f, v)]).
  { intros [|] f l; [right|left]; done. }
  destruct (Hl _ _ _ H1) as [->|[v1 ->]], (Hl _ _ _ H2) as [->|[v2 ->]],
    (Hl _ _ _ H3) as [->|[v3 ->]], (Hl _ _ _ H4) as [->|[v4 ->]],
    (Hl _ _ _ H5) as [->|[v5 ->]];
    cbn [flat_map fst snd app];
    (split; [reflexivity|]); intros field body Hin;
    repeat (destruct Hin as [Hin|Hin];
            [injection Hin as <- <-; cbn [fst snd];
             match goal with
             | |- match ?r with _ => _ end =>
                 destruct r as [[]|?];
                 [ first [ match goal with
                           | H : exists v, [] = [_] |- _ =>
                               destruct H as [? H]; discriminate H
                           end
                         | eexists; split; reflexivity ]
                 | first [ reflexivity
                         | match goal with
                           | H : [_] = [] |- _ => discriminate H
                           end ] ]
             end|]);
    destruct Hin.
Qed.

(** X18. [_parse_place] never raises, sends no request and writes no
    row; it logs two messages for each block that raised; its record has
    the columns of [metadata_default]; and each of its five fields is
    either the value its own block extracted or still [None], whatever
    happened to the other blocks. *)
Theorem place_fields_are_independent E response pw :
  exists metadata pw',
    _parse_place E response pw = (Ok metadata, pw')
    /\ trace (fst pw') = trace (fst pw)
    /\ n_http (fst pw') = n_http (fst pw)
    /\ heap (fst pw') = heap (fst pw)
    /\ map snd (snd pw') = map snd (snd pw) ++ place_messages response
    /\ map fst metadata = map fst metadata_default
    /\ forall field body,
         In (field, body) (place_bodies response) ->
         match snd body with
         | Raise _ => dict_get field metadata = Some VNone
         | Ok _ => exists v, fst body = [(field, v)]
                             /\ dict_get field metadata = Some v
         end.
Proof.
  eexists _, _. split; [apply _parse_place_spec|].
  cbn [fst snd tick trace n_http heap].
  split; [done|]. split; [done|]. split; [done|]. split.
  - rewrite map_app, map_map. cbn [snd]. by rewrite map_id.
  - apply place_record_fields.
Qed.

Lemma rows_of_snoc_log tr r : rows_of (tr ++ [EvLog r]) = rows_of tr.
Proof. rewrite rows_of_app. apply app_nil_r. Qed.

(** X19. [scrape_place] sends one request and does not retry.  When it
    returns, it has written one row, the record it returns, which holds
    the URL and the feature id read from it.  When it raises, it has
    written no row: either the URL was unreadable and nothing was
    requested, or the one request was sent and its failure is passed on
    to the caller. *)
Theorem place_is_fetched_once E self url hl0 pw :
  let out := scrape_place E self url hl0 pw in
  let w' := fst (snd out) in
  match fst out with
  | Ok metadata =>
      n_http w' = S (n_http (fst pw))
      /\ rows_of (trace w') = rows_of (trace (fst pw)) ++ [metadata]
      /\ dict_get "url" metadata = Some (VStr url)
      /\ exists fid, _parse_url_to_feature_id url = Ok fid
                     /\ dict_get "feature_id" metadata = Some (VStr fid)
  | Raise e =>
      rows_of (trace w') = rows_of (trace (fst pw))
      /\ ((e = IndexError /\ n_http w' = n_http (fst pw))
          \/ (n_http w' = S (n_http (fst pw))
              /\ exists fid w1,
                   _parse_url_to_feature_id url = Ok fid
                   /\ fst (_get_api_response E self fid EmptyString hl0 EmptyString
                             EmptyString EmptyString w1) = Raise e))
  end.
Proof.
  destruct pw as [w pl]. cbv zeta.
  destruct (scrape_place E self url hl0 (w, pl)) as [r [w' pl']] eqn:H.
  cbn [fst snd].
  unfold scrape_place, p_bind, shared, lift, log, emit, place_logged in H.
  cbn [fst snd] in H.
  destruct (index (re_findall re_place_name url) 0) as [name|e0] eqn:Hname.
  2:{ injection H as <- <- <-. split; [done|left]. split; [|done].
      unfold index in Hname. destruct (nth_error _ 0); [discriminate Hname|].
      by injection Hname as <-. }
  destruct (_parse_url_to_feature_id url) as [fid|e0] eqn:Hfid.
  2:{ injection H as <- <- <-. cbn [trace n_http]. rewrite rows_of_snoc_log.
      split; [done|left]. split; [|done].
      unfold _parse_url_to_feature_id, index in Hfid.
      destruct (nth_error _ 0); [discriminate Hfid|]. by injection Hfid as <-. }
  match type of H with
  | context [_get_api_response E self fid ?a hl0 ?s ?t ?k ?w0] =>
      pose proof (_get_api_response_world E self fid a hl0 s t k w0) as Hw;
      destruct (_get_api_response E self fid a hl0 s t k w0) as [[p|e0] w1] eqn:Hget
  end; cbv zeta in Hw; cbn [fst snd n_http trace] in Hw, H;
    destruct Hw as (Hn & _ & _ & query & Htr).
  2:{ injection H as <- <- <-. rewrite Htr, rows_of_app, rows_of_snoc_log.
      split; [apply app_nil_r|right].
      split; [done|]. eexists fid, _. split; [done|]. by rewrite Hget. }
  rewrite _parse_place_spec in H. cbn [fst snd] in H.
  unfold p_ret, write_row, emit, tick in H. cbn [fst snd trace n_http] in H.
  injection H as <- <- <-. cbn [trace n_http].
  split; [done|]. split.
  - rewrite !rows_of_app, Htr, rows_of_app, rows_of_snoc_log.
    cbn. by rewrite !app_nil_r.
  - split; [apply dict_get_set_eq|]. exists fid. split; [done|].
    rewrite dict_get_set_ne by done. apply dict_get_set_eq.
Qed.

Example place_example :
  fst (scrape_place place_env default_scraper place_url EmptyString (world0, []))
  = Ok [ ("feature_id", VStr "0x94ce59:0x5c1a2b"); ("url", VStr place_url);
         ("place_name", VStr "Cafe Central"); ("address", VStr "Rua A, 10");
         ("overall_rating", VFloat (9 # 2)); ("n_reviews", VInt 1234);
         ("topics", VNone); ("retrieval_date", VStr "2024-01-01 00:00:00") ].
Proof. vm_compute. reflexivity. Qed.

(** ** The further properties on concrete inputs *)


Lemma unreadable_url_witness :
  scrape_reviews down_env default_scraper "maps" 20 EmptyString "newest"
                 EmptyString world0
  = (Raise IndexError, world0)
  /\ scrape_reviews down_env default_scraper "maps/place/Cafe/data" 20
                    EmptyString "newest" EmptyString world0
     = (Raise IndexError, snd (log (LogScraping "Cafe") world0)).
Proof.
  destruct (unreadable_url_is_fatal_before_any_request down_env default_scraper
              "maps" 20 EmptyString "newest" EmptyString world0) as [H _].
  destruct (unreadable_url_is_fatal_before_any_request down_env default_scraper
              "maps/place/Cafe/data" 20 EmptyString "newest" EmptyString world0)
    as [_ H'].
  split; [apply H; reflexivity|].
  apply (H' "Cafe"); reflexivity.
Defined.

Lemma nothing_requested_witness :
  scrape_reviews down_env default_scraper place_url 0 EmptyString "newest"
                 EmptyString world0
  = (Raise UnboundLocalError, snd (log (LogScraping "Cafe") world0)).
Proof.
  apply (nothing_requested_nothing_fetched down_env default_scraper place_url 0
           EmptyString "newest" EmptyString world0 "Cafe" "0x94ce59:0x5c1a2b");
    [reflexivity | reflexivity | lia].
Defined.

Lemma failure_is_recorded_witness :
  exists entry tb path,
    _handle_review_exception down_env review_default_result None "rating"
                             AttributeError world0
    = (Ok review_default_result,
       {| heap := <[errors_loc := [] ++ [entry]]> (heap world0);
          clock := S (clock world0);
          n_http := n_http world0;
          trace := trace world0 ++ [EvLog (LogReviewError tb);
                                    EvErrorFile path None] |})
    /\ Forall (fun c => is_quote c = false) (chars entry).
Proof.
  apply (failure_is_recorded_once down_env review_default_result None "rating"
           AttributeError world0 []); reflexivity.
Defined.

Lemma cut_without_opening_tag_witness :
  exists fragment,
    _cut_response "x</div>" = Ok ("<html><body>" +:+ fragment +:+ "</body></html>")
    /\ (String.length fragment <= 1)%nat.
Proof.
  apply (cut_without_opening_tag "x</div>" 1); reflexivity.
Defined.

Lemma rating_numbers_witness :
  is_decimal "4.0" /\ exists q, py_float "4.0" = Ok q.
Proof.
  apply (rating_numbers_are_numbers "4,0 de 5,0" "4.0"). vm_compute. by left.
Defined.

Lemma errors_list_shared_witness :
  exists ra w1 rb w2,
    _parse_review down_env (Some full_review) world0 = (Ok ra, w1)
    /\ _parse_review down_env None w1 = (Ok rb, w2)
    /\ dict_get "errors" ra = Some (VList errors_loc)
    /\ dict_get "errors" rb = Some (VList errors_loc)
    /\ list_contents (VList errors_loc) w2
       = list_contents (VList errors_loc) w1
         ++ map (fun ne => describe down_env (fst ne) (snd ne)) (failures None).
Proof.
  apply (errors_list_shared down_env (Some full_review) None world0 []).
  reflexivity.
Defined.

Lemma record_columns_witness :
  exists r w',
    _parse_review down_env (Some full_review) world0 = (Ok r, w')
    /\ map fst r = map fst review_default_result
    /\ map fst (dict_set "token" (VStr "t1") r) = map fst review_default_result.
Proof.
  apply (record_columns_are_fixed down_env (Some full_review) "t1" world0 []).
  reflexivity.
Defined.

